(** * The chatbot response pipeline of [src/components/chatbot/chatbot.jsx]

    A shallow embedding of the [Chatbot] component's logic: the React state,
    the three async functions [classifyStatementType],
    [getFactCheckCorrection] and [handleSend], and the environment they talk
    to (the wall clock, the generation endpoint, the Gemini SDK, the console).

    - JS strings are Rocq strings, sequences of characters whose width
      nothing here depends on; [includes], [endsWith], [join] and
      concatenation are defined here.  [trim], [toUpperCase] and
      [toLowerCase] depend on the Unicode tables of the JS engine and are
      taken as the members of the class [JsString]: every theorem holds for
      any engine.  An instance for ASCII text is given in [AsciiText] and
      used for every concrete run.
    - An [async] function is a computation in the monad [M]: it threads the
      [World] (React state plus the trace of effects so far) and completes
      normally or by a throw.  [await] is sequencing.
    - The environment is an [Env]: what [Date.now()], [fetch] and
      [ai.models.generateContent] answer, as functions of the trace so far,
      so that an answer may depend on everything that happened before.
    - [handleSend] is a closure of a render: it reads [input], [isLoading],
      [messages] and the toggles as that render saw them, while the setters
      act on the current state.  Events are handled one at a time; the
      render and the JSX are not modelled.

    The file has the model first (built-ins, data, monad, component), then
    the vocabulary of the statements and the concrete environments, then
    the lemmas and theorems. *)

From Stdlib Require Import String Ascii List ZArith Bool Lia Sorted.
Import ListNotations.
Local Open Scope string_scope.
Local Open Scope Z_scope.

Set Implicit Arguments.

(* ===================================================================== *)
(** ** JS string and array built-ins *)
(* ===================================================================== *)

Module Js.

(** The line feed and the double quote, which the template literals of the
    source contain. *)
Definition nl : string := String "010"%char EmptyString.
Definition dq : string := String "034"%char EmptyString.

(** [s.startsWith(p)]. *)
Fixpoint startsWith (s p : string) {struct p} : bool :=
  match p, s with
  | EmptyString, _ => true
  | String _ _, EmptyString => false
  | String c p', String d s' => Ascii.eqb c d && startsWith s' p'
  end.

(** [s.includes(sub)]: [sub] occurs in [s] at some position. *)
Fixpoint includes (s sub : string) : bool :=
  startsWith s sub
  || match s with
     | EmptyString => false
     | String _ s' => includes s' sub
     end.

(** [s.endsWith(suf)]: some tail of [s] is [suf]. *)
Fixpoint endsWith (s suf : string) : bool :=
  String.eqb s suf
  || match s with
     | EmptyString => false
     | String _ s' => endsWith s' suf
     end.

(** [arr.join(sep)] on an array of strings. *)
Fixpoint join (sep : string) (l : list string) : string :=
  match l with
  | [] => ""
  | [x] => x
  | x :: rest => x ++ sep ++ join sep rest
  end.

(** [arr.slice(start)]: a negative [start] counts from the end, and both
    ends are clamped to the array. *)
Definition slice {A : Type} (start : Z) (l : list A) : list A :=
  let len := Z.of_nat (length l) in
  let k := if start <? 0 then Z.max (len + start) 0 else Z.min start len in
  skipn (Z.to_nat k) l.

(** Truthiness of a string: every string but the empty one. *)
Definition truthy (s : string) : bool :=
  match s with
  | EmptyString => false
  | String _ _ => true
  end.

(** Truthiness of an optional member ([undefined] when absent). *)
Definition truthyOpt (o : option string) : bool :=
  match o with
  | Some s => truthy s
  | None => false
  end.

(** What the specification means by "contains". *)
Definition Contains (s sub : string) : Prop :=
  exists pre post, s = pre ++ sub ++ post.

End Js.

(** [String.prototype.trim], [toUpperCase] and [toLowerCase]: the engine's
    Unicode-aware built-ins. *)
Class JsString : Type := {
  trim : string -> string;
  toUpperCase : string -> string;
  toLowerCase : string -> string
}.

(* ===================================================================== *)
(** ** Data model *)
(* ===================================================================== *)

Inductive Sender : Type := user | bot.

(** A message object.  [isError] is absent on all messages but the apology
    (absent reads as falsy); [correction: null] is [None]. *)
Module Msg.
Record t : Type := mk {
  id : Z;
  text : string;
  sender : Sender;
  correction : option string;
  isError : bool
}.
End Msg.

(** The component's [useState] cells. *)
Record UiState : Type := {
  messages : list Msg.t;
  input : string;
  isContextEnabled : bool;
  isFactCheckEnabled : bool;
  isLoading : bool
}.

(** Values a [throw] or a rejected promise carries. *)
Inductive JsError : Type :=
| LlmStatusError (status : Z)       (* Error(`Custom LLM error! status: ${status}`) *)
| LlmInvalidResponse                (* Error("Invalid response from custom LLM.") *)
| TypeError (what : string)         (* member access on undefined *)
| Rejected (reason : string).       (* network or backend failure *)

(** *** The generation endpoint *)

Record FetchRequest : Type := {
  endpoint : string;
  prompt : string;
  max_new_tokens : Z;
  method : string
}.

(** The parsed body [{ response?: string }]. *)
Module Data.
Record t : Type := mk { response : option string }.
End Data.

Inductive JsonBody : Type :=
| NotJson (e : JsError)             (* response.json() rejects *)
| Json (data : Data.t).

Record HttpResponse : Type := {
  status : Z;
  body : JsonBody
}.

(** [response.ok]: the status is in the range 200-299. *)
Definition ok (r : HttpResponse) : bool :=
  (200 <=? status r) && (status r <=? 299).

Inductive FetchOutcome : Type :=
| FetchRejected (e : JsError)
| FetchResolved (r : HttpResponse).

(** *** The Gemini SDK *)

Record JsonSchemaProperty : Type := {
  prop_name : string;
  prop_type : string;
  prop_description : string
}.

Record JsonSchema : Type := {
  schema_type : string;
  properties : list JsonSchemaProperty;
  required : list string
}.

Record FunctionDeclaration : Type := {
  name : string;
  description : string;
  parametersJsonSchema : JsonSchema
}.

Record Tool : Type := { functionDeclarations : list FunctionDeclaration }.

Record GenConfig : Type := {
  tools : list Tool;
  systemInstruction : string
}.

Record GenRequest : Type := {
  model : string;
  contents : string;
  config : option GenConfig
}.

Record FunctionCall : Type := {
  call_name : string;
  call_query : string
}.

Module Part.
Record t : Type := mk { text : option string }.
End Part.

Record Content : Type := { parts : option (list Part.t) }.

Record Candidate : Type := { content : option Content }.

(** [{ text?, functionCalls?, candidates? }]. *)
Module Resp.
Record t : Type := mk {
  text : option string;
  functionCalls : option (list FunctionCall);
  candidates : option (list Candidate)
}.
End Resp.

Inductive GenOutcome : Type :=
| GenRejected (e : JsError)
| GenResolved (r : Resp.t).

(** *** Effects and the world *)

(** What the component does to the outside, in the order it does it.  A
    call is recorded with the answer it got. *)
Inductive Effect : Type :=
| EPreventDefault
| ENow (t : Z)
| ESetIsLoading (b : bool)
| EFetch (req : FetchRequest) (out : FetchOutcome)
| EGenerateContent (req : GenRequest) (out : GenOutcome)
| EConsoleLog (msg : string)
| EConsoleError (label : string) (e : JsError).

Record World : Type := {
  ui : UiState;
  trace : list Effect
}.

(** The environment: each answer may depend on everything that happened
    before it. *)
Record Env : Type := {
  clock : list Effect -> Z;
  endpoint_reply : list Effect -> FetchRequest -> FetchOutcome;
  genai_reply : list Effect -> GenRequest -> GenOutcome
}.

(* ===================================================================== *)
(** ** The monad of async functions *)
(* ===================================================================== *)

Inductive Completion (A : Type) : Type :=
| Normal (a : A)
| Throw (e : JsError).
Arguments Throw {A} e.

Definition M (A : Type) : Type := World -> Completion A * World.

Definition ret {A : Type} (a : A) : M A := fun w => (Normal a, w).

Definition throw {A : Type} (e : JsError) : M A := fun w => (Throw e, w).

Definition bind {A B : Type} (m : M A) (k : A -> M B) : M B :=
  fun w =>
    match m w with
    | (Normal a, w1) => k a w1
    | (Throw e, w1) => (Throw e, w1)
    end.

(** [try { body } catch (error) { handler }]. *)
Definition tryCatch {A : Type} (body : M A) (handler : JsError -> M A) : M A :=
  fun w =>
    match body w with
    | (Normal a, w1) => (Normal a, w1)
    | (Throw e, w1) => handler e w1
    end.

(** [try { body } finally { final }]: [final] runs on both completions and
    overrides the completion of [body] only when it throws itself. *)
Definition tryFinally {A : Type} (body : M A) (final : M unit) : M A :=
  fun w =>
    match body w with
    | (c, w1) =>
        match final w1 with
        | (Normal _, w2) => (c, w2)
        | (Throw e, w2) => (Throw e, w2)
        end
    end.

Declare Scope js_scope.
Delimit Scope js_scope with js.
Notation "x <- m ;; k" := (bind m (fun x => k))
  (at level 100, m at next level, right associativity) : js_scope.
Notation "m ;; k" := (bind m (fun _ => k))
  (at level 100, right associativity) : js_scope.
Local Open Scope js_scope.

Definition emit (e : Effect) : M unit :=
  fun w => (Normal tt, {| ui := ui w; trace := (trace w ++ [e])%list |}).

Definition modifyUi (f : UiState -> UiState) : M unit :=
  fun w => (Normal tt, {| ui := f (ui w); trace := trace w |}).

(* ===================================================================== *)
(** ** The component *)
(* ===================================================================== *)

(** [groundingTool], lines 13-28. *)
Definition groundingTool : Tool :=
  {| functionDeclarations :=
       [ {| name := "google_search";
            description := "Search Google for information to verify facts";
            parametersJsonSchema :=
              {| schema_type := "object";
                 properties :=
                   [ {| prop_name := "query";
                        prop_type := "string";
                        prop_description := "The search query" |} ];
                 required := ["query"] |} |} ] |}.

(** The greeting [useState] starts the conversation with, lines 32-39. *)
Definition greeting : Msg.t :=
  {| Msg.id := 1;
     Msg.text := "Hello! Ask me anything. My responses can be fact-checked in real-time.";
     Msg.sender := bot;
     Msg.correction := None;
     Msg.isError := false |}.

(** The state of the first render, lines 32-43. *)
Definition initialState : UiState :=
  {| messages := [greeting];
     input := "";
     isContextEnabled := true;
     isFactCheckEnabled := true;
     isLoading := false |}.

Definition initialWorld : World := {| ui := initialState; trace := [] |}.

Inductive StatementType : Type := FACT | OPINION.

Definition opinionNotice : string :=
  "Statement is an opinion. Skipping fact-check.".
Definition technicalFallback : string :=
  "Unable to complete fact-check due to technical limitations.".
Definition unverifiedFallback : string :=
  "Unable to verify statement at this time.".
Definition unavailableNotice : string :=
  "Fact-check service is currently unavailable.".
Definition apology : string :=
  "Sorry, I'm having trouble connecting. Please try again later.".

Section Chatbot.

Context {JS : JsString}.
Variable env : Env.

(** *** State setters and the outside world *)

Definition setMessages (f : list Msg.t -> list Msg.t) : M unit :=
  modifyUi (fun s =>
    {| messages := f (messages s);
       input := input s;
       isContextEnabled := isContextEnabled s;
       isFactCheckEnabled := isFactCheckEnabled s;
       isLoading := isLoading s |}).

Definition setInput (v : string) : M unit :=
  modifyUi (fun s =>
    {| messages := messages s;
       input := v;
       isContextEnabled := isContextEnabled s;
       isFactCheckEnabled := isFactCheckEnabled s;
       isLoading := isLoading s |}).

Definition setIsContextEnabled (b : bool) : M unit :=
  modifyUi (fun s =>
    {| messages := messages s;
       input := input s;
       isContextEnabled := b;
       isFactCheckEnabled := isFactCheckEnabled s;
       isLoading := isLoading s |}).

Definition setIsFactCheckEnabled (b : bool) : M unit :=
  modifyUi (fun s =>
    {| messages := messages s;
       input := input s;
       isContextEnabled := isContextEnabled s;
       isFactCheckEnabled := b;
       isLoading := isLoading s |}).

Definition setIsLoading (b : bool) : M unit :=
  modifyUi (fun s =>
    {| messages := messages s;
       input := input s;
       isContextEnabled := isContextEnabled s;
       isFactCheckEnabled := isFactCheckEnabled s;
       isLoading := b |}) ;;
  emit (ESetIsLoading b).

Definition preventDefault : M unit := emit EPreventDefault.

Definition consoleLog (msg : string) : M unit := emit (EConsoleLog msg).

Definition consoleError (label : string) (e : JsError) : M unit :=
  emit (EConsoleError label e).

(** [Date.now()]: milliseconds since the epoch, below 2^53, so the [+ 1] of
    the source is exact. *)
Definition Date_now : M Z :=
  fun w =>
    let t := clock env (trace w) in
    (Normal t, {| ui := ui w; trace := (trace w ++ [ENow t])%list |}).

(** [await fetch(url, { method: 'POST' })]: rejects on a network failure. *)
Definition fetch (req : FetchRequest) : M HttpResponse :=
  fun w =>
    let out := endpoint_reply env (trace w) req in
    let w1 := {| ui := ui w; trace := (trace w ++ [EFetch req out])%list |} in
    match out with
    | FetchRejected e => (Throw e, w1)
    | FetchResolved r => (Normal r, w1)
    end.

(** [await response.json()]. *)
Definition json (r : HttpResponse) : M Data.t :=
  match body r with
  | NotJson e => throw e
  | Json data => ret data
  end.

(** [await ai.models.generateContent(req)]. *)
Definition generateContent (req : GenRequest) : M Resp.t :=
  fun w =>
    let out := genai_reply env (trace w) req in
    let w1 := {| ui := ui w; trace := (trace w ++ [EGenerateContent req out])%list |} in
    match out with
    | GenRejected e => (Throw e, w1)
    | GenResolved r => (Normal r, w1)
    end.

(** *** [classifyStatementType], lines 52-72 *)

Definition classifyPrompt (text : string) : string :=
  "Analyze the following text. Is it making a specific, verifiable factual claim, or is it a general opinion, a piece of advice, a personal preference, or a subjective statement? Please respond with only the word 'FACT' or 'OPINION'."
  ++ Js.nl ++ Js.nl ++ "Text: " ++ Js.dq ++ text ++ Js.dq.

Definition classifyRequest (text : string) : GenRequest :=
  {| model := "gemini-1.5-flash";
     contents := classifyPrompt text;
     config := None |}.

Definition classifyStatementType (text : string) : M StatementType :=
  tryCatch
    (response <- generateContent (classifyRequest text) ;;
     (* response.text.trim() throws when response.text is undefined *)
     t <- match Resp.text response with
          | Some t => ret t
          | None => throw (TypeError "response.text")
          end ;;
     let responseText := toUpperCase (trim t) in
     if Js.includes responseText "FACT" then ret FACT else ret OPINION)
    (fun error =>
       consoleError "Error in classifying statement:" error ;;
       ret OPINION).

(** *** [getFactCheckCorrection], lines 74-143 *)

Definition factCheckPrompt (textToVerify : string) : string :=
  "You are a fact-checking assistant with access to Google Search. Your task is to verify the following statement by searching for relevant information online."
  ++ Js.nl
  ++ Js.nl ++ "IMPORTANT INSTRUCTIONS:"
  ++ Js.nl ++ "1. ALWAYS search Google for information related to this statement before responding"
  ++ Js.nl ++ "2. Use multiple search queries if needed to thoroughly verify the claim"
  ++ Js.nl ++ "3. Based on your search results, determine if the statement is accurate or not"
  ++ Js.nl ++ "4. If the statement is accurate, respond with " ++ Js.dq ++ "CORRECT" ++ Js.dq
  ++ Js.nl ++ "5. If the statement is inaccurate or partially incorrect, provide a brief correction based on the search results"
  ++ Js.nl ++ "6. Do NOT ask for more information - use Google Search to find what you need"
  ++ Js.nl
  ++ Js.nl ++ "Statement to verify: " ++ Js.dq ++ textToVerify ++ Js.dq
  ++ Js.nl
  ++ Js.nl ++ "Please search for information about this statement and provide your fact-check result.".

Definition factCheckRequest (textToVerify : string) : GenRequest :=
  {| model := "gemini-1.5-flash";
     contents := factCheckPrompt textToVerify;
     config :=
       Some {| tools := [groundingTool];
               systemInstruction :=
                 "You are a proactive fact-checking assistant. Always use Google Search to verify statements. Never ask for more information - search for what you need to verify the claim. Provide clear, concise corrections when statements are inaccurate." |} |}.

(** [part.text] read as a string: [join] prints [undefined] as the empty
    string. *)
Definition partText (p : Part.t) : string :=
  match Part.text p with
  | Some s => s
  | None => ""
  end.

(** The text gathered from the first candidate, lines 114-120: the value of
    [groundedResponse] before the fallback of line 123. *)
Definition candidateText (response : Resp.t) : string :=
  let candidates :=
    match Resp.candidates response with
    | Some cs => cs
    | None => []
    end in
  match candidates with
  | c0 :: _ =>
      match content c0 with
      | Some ct =>
          match parts ct with
          | Some ps =>
              let textParts := filter (fun part => Js.truthyOpt (Part.text part)) ps in
              match textParts with
              | _ :: _ => trim (Js.join " " (map partText textParts))
              | [] => ""
              end
          | None => ""
          end
      | None => ""
      end
  | [] => ""
  end.

(** [response.functionCalls && response.functionCalls.length > 0]. *)
Definition hasFunctionCalls (response : Resp.t) : bool :=
  match Resp.functionCalls response with
  | Some (_ :: _) => true
  | _ => false
  end.

(** The value of [groundedResponse] after lines 107-129. *)
Definition groundedResponse (response : Resp.t) : string :=
  match Resp.text response with
  | Some (String c s) => trim (String c s)
  | _ =>
      if hasFunctionCalls response then
        let fromCandidates := candidateText response in
        if Js.truthy fromCandidates then fromCandidates else technicalFallback
      else unverifiedFallback
  end.

(** The test of lines 132-134. *)
Definition explicitlyCorrect (groundedResponse : string) : bool :=
  String.eqb (toUpperCase groundedResponse) "CORRECT"
  || Js.includes (toLowerCase groundedResponse) "the statement is correct"
  || Js.includes (toLowerCase groundedResponse) "this is accurate".

Definition getFactCheckCorrection (textToVerify : string) : M (option string) :=
  type <- classifyStatementType textToVerify ;;
  match type with
  | OPINION =>
      consoleLog opinionNotice ;;
      ret (Some opinionNotice)
  | FACT =>
      tryCatch
        (response <- generateContent (factCheckRequest textToVerify) ;;
         let groundedResponse := groundedResponse response in
         if explicitlyCorrect groundedResponse
         then ret None
         else ret (Some groundedResponse))
        (fun error =>
           consoleError "Error during Gemini fact-checking:" error ;;
           ret (Some unavailableNotice))
  end.

(** *** [handleSend], lines 155-209 *)

(** Line 159. *)
Definition processedInput (input : string) : string :=
  if Js.endsWith (trim input) "?" then trim input else trim input ++ "?".

(** Lines 166-171; [messages] is the array the render closed over. *)
Definition promptWithContext (isContextEnabled : bool) (messages : list Msg.t)
    (processedInput : string) : string :=
  if isContextEnabled then
    let history := Js.slice (-4) messages in
    let context := Js.join (Js.nl ++ Js.nl) (map Msg.text history) in
    "Previous conversation:" ++ Js.nl ++ context
    ++ Js.nl ++ Js.nl ++ "Current question: " ++ processedInput
  else processedInput.

Definition generationRequest (promptWithContext : string) : FetchRequest :=
  {| endpoint := "https://gravitymygirl--generate.modal.run";
     prompt := promptWithContext;
     max_new_tokens := 256;
     method := "POST" |}.

(** The handler the render with state [snap] installs: [input], [isLoading],
    [messages] and the two toggles are the values of that render, and every
    setter acts on the current state. *)
Definition handleSend (snap : UiState) : M unit :=
  preventDefault ;;
  if negb (Js.truthy (trim (input snap))) || isLoading snap then ret tt
  else
    let processedInput := processedInput (input snap) in
    now1 <- Date_now ;;
    let userMessage :=
      {| Msg.id := now1; Msg.text := processedInput; Msg.sender := user;
         Msg.correction := None; Msg.isError := false |} in
    setMessages (fun prev => (prev ++ [userMessage])%list) ;;
    setInput "" ;;
    setIsLoading true ;;
    let promptWithContext :=
      promptWithContext (isContextEnabled snap) (messages snap) processedInput in
    tryFinally
      (tryCatch
         (response <- fetch (generationRequest promptWithContext) ;;
          (if ok response then ret tt
           else throw (LlmStatusError (status response))) ;;
          data <- json response ;;
          text <- match Data.response data with
                  | Some (String c s) => ret (String c s)
                  | _ => throw LlmInvalidResponse
                  end ;;
          correction <- (if isFactCheckEnabled snap
                         then getFactCheckCorrection text
                         else ret None) ;;
          now2 <- Date_now ;;
          let botMessage :=
            {| Msg.id := now2 + 1; Msg.text := text; Msg.sender := bot;
               Msg.correction := correction; Msg.isError := false |} in
          setMessages (fun prev => (prev ++ [botMessage])%list))
         (fun error =>
            consoleError "Failed to fetch from LLM endpoint:" error ;;
            now2 <- Date_now ;;
            let errorMessage :=
              {| Msg.id := now2 + 1; Msg.text := apology; Msg.sender := bot;
                 Msg.correction := None; Msg.isError := true |} in
            setMessages (fun prev => (prev ++ [errorMessage])%list)))
      (setIsLoading false).

(** A submit event on the form: the handler of the current render runs. *)
Definition submit : M unit := fun w => handleSend (ui w) w.

(** *** The events of the page *)

Inductive Action : Type :=
| TypeInput (value : string)     (* onChange of the text field *)
| ToggleContext                  (* click on the context switch *)
| ToggleFactCheck                (* click on the verification switch *)
| Submit.                        (* submit of the form *)

Definition dispatch (a : Action) : M unit :=
  match a with
  | TypeInput value => setInput value
  | ToggleContext => fun w => setIsContextEnabled (negb (isContextEnabled (ui w))) w
  | ToggleFactCheck => fun w => setIsFactCheckEnabled (negb (isFactCheckEnabled (ui w))) w
  | Submit => submit
  end.

Fixpoint run (actions : list Action) (w : World) : World :=
  match actions with
  | [] => w
  | a :: rest => run rest (snd (dispatch a w))
  end.

(** The effects one [submit] adds to the trace. *)
Definition turnEffects (w : World) : list Effect :=
  skipn (length (trace w)) (trace (snd (submit w))).

End Chatbot.

(* ===================================================================== *)
(** ** The built-ins on ASCII text *)
(* ===================================================================== *)

(** On text made of the characters U+0000 to U+007F the engine's [trim]
    strips tab, line feed, vertical tab, form feed, carriage return and
    space, and the case mappings act on the 26 letters only. *)
Module AsciiText.

Definition isWhiteSpace (c : ascii) : bool :=
  let n := nat_of_ascii c in
  ((9 <=? n) && (n <=? 13) || (n =? 32))%nat.

Fixpoint trimStart (s : string) : string :=
  match s with
  | EmptyString => EmptyString
  | String c s' => if isWhiteSpace c then trimStart s' else s
  end.

Fixpoint trimEnd (s : string) : string :=
  match s with
  | EmptyString => EmptyString
  | String c s' =>
      match trimEnd s' with
      | EmptyString => if isWhiteSpace c then EmptyString else String c EmptyString
      | rest => String c rest
      end
  end.

Definition upper (c : ascii) : ascii :=
  let n := nat_of_ascii c in
  if ((97 <=? n) && (n <=? 122))%nat then ascii_of_nat (n - 32) else c.

Definition lower (c : ascii) : ascii :=
  let n := nat_of_ascii c in
  if ((65 <=? n) && (n <=? 90))%nat then ascii_of_nat (n + 32) else c.

Fixpoint mapChars (f : ascii -> ascii) (s : string) : string :=
  match s with
  | EmptyString => EmptyString
  | String c s' => String (f c) (mapChars f s')
  end.

#[export] Instance engine : JsString := {
  trim := fun s => trimStart (trimEnd s);
  toUpperCase := mapChars upper;
  toLowerCase := mapChars lower
}.

End AsciiText.

(* ===================================================================== *)
(** ** The vocabulary of the statements *)
(* ===================================================================== *)

(** Names for the points a turn passes through and for the notions the
    specification uses.  None of them is part of the model: the lemma
    [turn_anatomy] proves that [submit] passes through these points. *)

Local Open Scope list_scope.

(** [w] with the effects [d] added and the React state untouched. *)
Definition extend (w : World) (d : list Effect) : World :=
  {| ui := ui w; trace := trace w ++ d |}.

(** The effects the classifier and the verifier may have: calls of the
    Gemini SDK and console output. *)
Definition verifierEffect (e : Effect) : Prop :=
  match e with
  | EGenerateContent _ _ | EConsoleLog _ | EConsoleError _ _ => True
  | _ => False
  end.

(** An effect that is no call of the Gemini SDK. *)
Definition notGenerateContent (e : Effect) : Prop :=
  match e with
  | EGenerateContent _ _ => False
  | _ => True
  end.

(** An effect that does not write the loading flag. *)
Definition notSetIsLoading (e : Effect) : Prop :=
  match e with
  | ESetIsLoading _ => False
  | _ => True
  end.

(** What lines 177-181 make of the endpoint's answer: the generated text,
    or the error that takes the turn to the [catch] block. *)
Definition generation (out : FetchOutcome) : JsError + string :=
  match out with
  | FetchRejected e => inl e
  | FetchResolved r =>
      if ok r then
        match body r with
        | NotJson e => inl e
        | Json data =>
            match Data.response data with
            | Some (String c s) => inr (String c s)
            | _ => inl LlmInvalidResponse
            end
        end
      else inl (LlmStatusError (status r))
  end.

Definition botMessage (text : string) (correction : option string) (id : Z) : Msg.t :=
  {| Msg.id := id; Msg.text := text; Msg.sender := bot;
     Msg.correction := correction; Msg.isError := false |}.

Definition errorMessage (id : Z) : Msg.t :=
  {| Msg.id := id; Msg.text := apology; Msg.sender := bot;
     Msg.correction := None; Msg.isError := true |}.

Section TurnPoints.

Context {JS : JsString}.
Variable env : Env.

(** The guard of line 157 lets the submit through. *)
Definition accepted (w : World) : Prop :=
  trim (input (ui w)) <> ""%string /\ isLoading (ui w) = false.

(** The first reading of the clock in a turn. *)
Definition arrival (w : World) : Z := clock env (trace w ++ [EPreventDefault]).

Definition userMessage (w : World) : Msg.t :=
  {| Msg.id := arrival w; Msg.text := processedInput (input (ui w));
     Msg.sender := user; Msg.correction := None; Msg.isError := false |}.

(** The request of the turn and the trace it is sent on. *)
Definition turnRequest (w : World) : FetchRequest :=
  generationRequest
    (promptWithContext (isContextEnabled (ui w)) (messages (ui w))
       (processedInput (input (ui w)))).

Definition sendingTrace (w : World) : list Effect :=
  trace w ++ [EPreventDefault; ENow (arrival w); ESetIsLoading true].

Definition turnReply (w : World) : FetchOutcome :=
  endpoint_reply env (sendingTrace w) (turnRequest w).

(** The world when the endpoint has answered. *)
Definition sending (w : World) : World :=
  {| ui := {| messages := messages (ui w) ++ [userMessage w];
              input := "";
              isContextEnabled := isContextEnabled (ui w);
              isFactCheckEnabled := isFactCheckEnabled (ui w);
              isLoading := true |};
     trace := sendingTrace w ++ [EFetch (turnRequest w) (turnReply w)] |}.

(** The end of a turn: the clock is read, the message with that reading
    plus one as its id is appended, and the flag is cleared. *)
Definition settle (w : World) (message : Z -> Msg.t) : World :=
  let now2 := clock env (trace w) in
  {| ui := {| messages := messages (ui w) ++ [message (now2 + 1)];
              input := input (ui w);
              isContextEnabled := isContextEnabled (ui w);
              isFactCheckEnabled := isFactCheckEnabled (ui w);
              isLoading := false |};
     trace := trace w ++ [ENow now2; ESetIsLoading false] |}.

End TurnPoints.

(** The parts of a candidate, none when [content] or [parts] is absent. *)
Definition candidateParts (c : Candidate) : list Part.t :=
  match content c with
  | Some ct =>
      match parts ct with
      | Some ps => ps
      | None => []
      end
  | None => []
  end.

(** The parts of [candidates[0]], none when there is no candidate. *)
Definition firstCandidateParts (r : Resp.t) : list Part.t :=
  match Resp.candidates r with
  | Some (c0 :: _) => candidateParts c0
  | _ => []
  end.

(** The text fragments of some parts: their non-empty [text] members, in
    order. *)
Fixpoint fragments (ps : list Part.t) : list string :=
  match ps with
  | [] => []
  | p :: rest =>
      match Part.text p with
      | Some (String c s) => String c s :: fragments rest
      | _ => fragments rest
      end
  end.

(** What "the response carries no direct text" means for line 109: the
    member is absent or the empty string. *)
Definition noDirectText (r : Resp.t) : Prop :=
  Resp.text r = None \/ Resp.text r = Some ""%string.

(** The fixed template of the prompt with context, over the texts of the
    window and the question. *)
Definition contextTemplate (texts : list string) (question : string) : string :=
  ("Previous conversation:" ++ Js.nl ++ Js.join (Js.nl ++ Js.nl) texts
   ++ Js.nl ++ Js.nl ++ "Current question: " ++ question)%string.

(** The readings of the clock a trace records, in order. *)
Fixpoint clockReadings (tr : list Effect) : list Z :=
  match tr with
  | [] => []
  | ENow t :: rest => t :: clockReadings rest
  | _ :: rest => clockReadings rest
  end.

(** The readings come in pairs, the two of a turn.  They are timed above
    [floor], the largest id given out before, when the first reading of
    each turn is above every id given out so far and the second is not
    below the first; the reply then takes the second reading plus one. *)
Fixpoint timed (floor : Z) (readings : list Z) : Prop :=
  match readings with
  | first :: second :: rest =>
      floor < first /\ first <= second /\ timed (second + 1) rest
  | _ => True
  end.

(** The readings and the ids of some turns, each given by its two
    readings. *)
Definition readingsOf (turns : list (Z * Z)) : list Z :=
  flat_map (fun turn => [fst turn; snd turn]) turns.

Definition idsOf (turns : list (Z * Z)) : list Z :=
  flat_map (fun turn => [fst turn; snd turn + 1]) turns.

(* ===================================================================== *)
(** ** The extraction as the specification words it *)
(* ===================================================================== *)

(** The text fragments found among all the candidates. *)
Definition statedFragments (r : Resp.t) : list string :=
  flat_map (fun c => fragments (candidateParts c))
    (match Resp.candidates r with
     | Some cs => cs
     | None => []
     end).

(** The specification's three steps: the direct text trimmed; else, with
    function calls, the fragments joined with spaces, or the
    technical-limitations fallback when there is none; else the
    unable-to-verify fallback. *)
Definition statedExtraction {JS : JsString} (r : Resp.t) : string :=
  match Resp.text r with
  | Some (String c s) => trim (String c s)
  | _ =>
      if hasFunctionCalls r then
        match statedFragments r with
        | [] => technicalFallback
        | fs => Js.join " " fs
        end
      else unverifiedFallback
  end.

(* ===================================================================== *)
(** ** Concrete environments and pages *)
(* ===================================================================== *)

Module Scenario.
Import AsciiText.

Definition epoch : Z := 1700000000000.

(** A clock that advances a quarter of a second with every effect. *)
Definition steadyClock (tr : list Effect) : Z :=
  epoch + 250 * Z.of_nat (length tr).

Definition http (code : Z) (payload : option string) : FetchOutcome :=
  FetchResolved {| status := code; body := Json (Data.mk payload) |}.

Definition saying (text : string) : GenOutcome :=
  GenResolved {| Resp.text := Some text; Resp.functionCalls := None;
                 Resp.candidates := None |}.

(** The SDK answering the classification (the request without [config])
    with [label] and the verification with [verdict]. *)
Definition gemini (label verdict : GenOutcome) (tr : list Effect)
    (req : GenRequest) : GenOutcome :=
  match config req with
  | None => label
  | Some _ => verdict
  end.

(** The end-to-end success of the specification: a wrong statement that
    the verifier corrects. *)
Definition skyText : string := "The sky is green due to scattering.".
Definition skyCorrection : string :=
  "The sky is blue, not green, due to Rayleigh scattering.".

Definition skyEnv : Env :=
  {| clock := steadyClock;
     endpoint_reply := fun _ _ => http 200 (Some skyText);
     genai_reply := gemini (saying "FACT") (saying skyCorrection) |}.

(** The endpoint answering with HTTP 500. *)
Definition downEnv : Env :=
  {| clock := steadyClock;
     endpoint_reply := fun _ _ => http 500 None;
     genai_reply := gemini (saying "FACT") (saying "CORRECT") |}.

(** The verification call failing. *)
Definition unverifiedEnv : Env :=
  {| clock := steadyClock;
     endpoint_reply := fun _ _ => http 200 (Some skyText);
     genai_reply := gemini (saying "FACT") (GenRejected (Rejected "503")) |}.

(** The page after the user typed a question. *)
Definition asked : World := run skyEnv [TypeInput "the sky is green"] initialWorld.

(** The same with the verification switch turned off. *)
Definition askedUnchecked : World :=
  run skyEnv [ToggleFactCheck; TypeInput "the sky is green"] initialWorld.

(** A page in the middle of a turn, with text in the input field. *)
Definition busy : World :=
  {| ui := {| messages := [greeting];
              input := "one more";
              isContextEnabled := true;
              isFactCheckEnabled := true;
              isLoading := true |};
     trace := [EPreventDefault; ENow epoch; ESetIsLoading true] |}.

(** A verification answer with function calls and no consolidated text:
    the text sits in the parts of the candidate, the last one ending with
    a line feed. *)
Definition toolResponse : Resp.t :=
  {| Resp.text := None;
     Resp.functionCalls :=
       Some [ {| call_name := "google_search"; call_query := "colour of the sky" |} ];
     Resp.candidates :=
       Some [ {| content :=
                   Some {| parts :=
                             Some [ Part.mk (Some "The sky is blue,");
                                    Part.mk None;
                                    Part.mk (Some ("not green." ++ Js.nl)%string) ] |} |} ] |}.

(** Three clock readings: the first turn's two, 300 ms apart, and the
    second turn's first, one millisecond after the bot message was made. *)
Definition readings (tr : list Effect) : nat :=
  length (filter (fun e => match e with ENow _ => true | _ => false end) tr).

Definition racingClock (tr : list Effect) : Z :=
  match readings tr with
  | 0%nat => epoch
  | 1%nat => epoch + 300
  | 2%nat => epoch + 301
  | _ => epoch + 600
  end.

Definition racingEnv : Env :=
  {| clock := racingClock;
     endpoint_reply := fun _ _ => http 200 (Some "Hello there.");
     genai_reply := gemini (saying "OPINION") (saying "CORRECT") |}.

Definition twoTurns : list Action :=
  [TypeInput "hi"; Submit; TypeInput "and you"; Submit].

(** A clock that stands still within a turn and moves two milliseconds
    between turns: the readings are 2, 2, 4, 4, 6, 6 and so on. *)
Definition pairedEnv : Env :=
  {| clock := fun tr => 2 + 2 * Z.of_nat (Nat.div2 (readings tr));
     endpoint_reply := fun _ _ => http 200 (Some "Hello there.");
     genai_reply := gemini (saying "OPINION") (saying "CORRECT") |}.

End Scenario.

(* ===================================================================== *)
(** ** The rendered page *)
(* ===================================================================== *)

(** What the JSX of lines 211-284 puts on the page, as far as it depends
    on the state: the rows of the chat window, the loading row, the two
    switches, the disclaimer, and the input field with its button. *)
Module View.

Record Row : Type := {
  key : Z;
  containerClass : string;
  messageClass : string;
  body : string;
  playButton : bool;
  correctionBox : option string
}.

Record Switch : Type := {
  switchClass : string;
  pressed : bool;
  label : string
}.

Record Page : Type := {
  rows : list Row;
  loadingRow : bool;
  contextSwitch : Switch;
  factCheckSwitch : Switch;
  disclaimer : option string;
  inputValue : string;
  inputDisabled : bool;
  submitDisabled : bool
}.

End View.

(** The string a [sender] is in the source. *)
Definition senderName (s : Sender) : string :=
  match s with
  | user => "user"
  | bot => "bot"
  end.

(** One [messages.map] row, lines 215-230: the play button on a bot message
    with id 1, the correction box when [msg.correction] is truthy. *)
Definition renderMessage (msg : Msg.t) : View.Row :=
  {| View.key := Msg.id msg;
     View.containerClass := ("message-container " ++ senderName (Msg.sender msg))%string;
     View.messageClass :=
       ("message " ++ senderName (Msg.sender msg) ++ " "
        ++ (if Msg.isError msg then "error" else ""))%string;
     View.body := Msg.text msg;
     View.playButton :=
       match Msg.sender msg with
       | bot => Msg.id msg =? 1
       | user => false
       end;
     View.correctionBox :=
       match Msg.correction msg with
       | Some (String c s) => Some (String c s)
       | _ => None
       end |}.

(** A toggle button, lines 246-253 and 257-264. *)
Definition renderSwitch (enabled : bool) : View.Switch :=
  {| View.switchClass := ("switch " ++ (if enabled then "on" else "off"))%string;
     View.pressed := enabled;
     View.label := if enabled then "ON" else "OFF" |}.

Definition disclaimerText : string :=
  "Model can hallucinate, so real-time verification is enabled.".

(** The [return] of the component, lines 211-284. *)
Definition render {JS : JsString} (s : UiState) : View.Page :=
  {| View.rows := map renderMessage (messages s);
     View.loadingRow := isLoading s;
     View.contextSwitch := renderSwitch (isContextEnabled s);
     View.factCheckSwitch := renderSwitch (isFactCheckEnabled s);
     View.disclaimer := if isFactCheckEnabled s then Some disclaimerText else None;
     View.inputValue := input s;
     View.inputDisabled := isLoading s;
     View.submitDisabled := isLoading s || negb (Js.truthy (trim (input s))) |}.

(* ===================================================================== *)
(** ** More vocabulary *)
(* ===================================================================== *)

(** The calls a trace makes to the two backends, in order. *)
Inductive BackendCall : Type :=
| FetchCall (req : FetchRequest)
| GenerateCall (req : GenRequest).

Fixpoint backendCalls (tr : list Effect) : list BackendCall :=
  match tr with
  | [] => []
  | EFetch req _ :: rest => FetchCall req :: backendCalls rest
  | EGenerateContent req _ :: rest => GenerateCall req :: backendCalls rest
  | _ :: rest => backendCalls rest
  end.



(* ===================================================================== *)
(** ** More environments *)
(* ===================================================================== *)

Module MoreScenarios.
Import AsciiText Scenario.

(** The browser offline: the request is rejected. *)
Definition offlineEnv : Env :=
  {| clock := steadyClock;
     endpoint_reply := fun _ _ => FetchRejected (Rejected "Failed to fetch");
     genai_reply := gemini (saying "FACT") (saying "CORRECT") |}.

(** A clock that stands still, as under fake timers. *)
Definition frozenEnv : Env :=
  {| clock := fun _ => epoch;
     endpoint_reply := fun _ _ => http 200 (Some skyText);
     genai_reply := gemini (saying "OPINION") (saying "CORRECT") |}.

(** The classification call rejected. *)
Definition unclassifiedEnv : Env :=
  {| clock := steadyClock;
     endpoint_reply := fun _ _ => http 200 (Some skyText);
     genai_reply := gemini (GenRejected (Rejected "429")) (saying "CORRECT") |}.

(** The verification answering with two spaces. *)
Definition blankVerdictEnv : Env :=
  {| clock := steadyClock;
     endpoint_reply := fun _ _ => http 200 (Some skyText);
     genai_reply := gemini (saying "FACT") (saying "  ") |}.

End MoreScenarios.

(* ===================================================================== *)
(** ** Facts about the built-ins *)
(* ===================================================================== *)

Module JsFacts.
Import Js.
Local Open Scope string_scope.

Lemma truthy_true (s : string) : truthy s = true <-> s <> "".
Proof.
  destruct s; simpl; split; intro H; congruence.
Qed.

Lemma truthy_false (s : string) : truthy s = false <-> s = "".
Proof.
  destruct s; simpl; split; intro H; congruence.
Qed.

(** [startsWith] decides "is a prefix". *)
Lemma startsWith_spec (s p : string) :
  startsWith s p = true <-> exists post, s = p ++ post.
Proof.
  revert s; induction p as [|c p IH]; intros s; simpl.
  - split; [intros _; now exists s | reflexivity].
  - destruct s as [|d s].
    + split; [discriminate | intros [post H]; discriminate].
    + rewrite andb_true_iff, IH. split.
      * intros [Hc [post ->]]. apply Ascii.eqb_eq in Hc. subst d. now exists post.
      * intros [post H]. injection H as -> ->. split; [apply Ascii.eqb_refl | now exists post].
Qed.

(** [includes] decides "contains". *)
Lemma includes_Contains (s sub : string) :
  includes s sub = true <-> Contains s sub.
Proof.
  unfold Contains. induction s as [|d s IH].
  - simpl. rewrite orb_false_r, startsWith_spec. split.
    + intros [post H]. now exists "", post.
    + intros [pre [post H]]. destruct pre as [|x pre]; [now exists post | discriminate].
  - cbn [includes]. rewrite orb_true_iff, startsWith_spec, IH. split.
    + intros [[post H] | [pre [post H]]].
      * now exists "", post.
      * exists (String d pre), post. simpl. now rewrite H.
    + intros [pre [post H]]. destruct pre as [|x pre].
      * left. now exists post.
      * right. simpl in H. injection H as _ H. now exists pre, post.
Qed.

Lemma includes_not_Contains (s sub : string) :
  includes s sub = false <-> ~ Contains s sub.
Proof.
  rewrite <- includes_Contains. destruct (includes s sub); split; congruence.
Qed.

(** [endsWith] decides "is a suffix". *)
Lemma endsWith_spec (s suf : string) :
  endsWith s suf = true <-> exists pre, s = pre ++ suf.
Proof.
  induction s as [|d s IH].
  - cbn [endsWith]. rewrite orb_false_r, String.eqb_eq. split.
    + intros <-. now exists "".
    + intros [pre H]. destruct pre; simpl in H; [easy | discriminate].
  - cbn [endsWith]. rewrite orb_true_iff, String.eqb_eq, IH. split.
    + intros [<- | [pre ->]]; [now exists "" | now exists (String d pre)].
    + intros [pre H]. destruct pre as [|x pre]; simpl in H.
      * now left.
      * right. injection H as _ H. now exists pre.
Qed.

Local Open Scope list_scope.

(** [slice(-k)] keeps the last [k] elements, all of them when there are
    fewer. *)
Lemma slice_last {A : Type} (k : nat) (l : list A) :
  (0 < k)%nat ->
  exists older,
    l = older ++ slice (- Z.of_nat k) l
    /\ length (slice (- Z.of_nat k) l) = Nat.min k (length l).
Proof.
  intros Hk. unfold slice.
  destruct (Z.ltb_spec (- Z.of_nat k) 0) as [_|H]; [|lia].
  set (n := Z.to_nat (Z.max (Z.of_nat (length l) + - Z.of_nat k) 0)).
  exists (firstn n l). split.
  - symmetry. apply firstn_skipn.
  - rewrite length_skipn. subst n. lia.
Qed.

End JsFacts.

(* ===================================================================== *)
(** ** The anatomy of one turn *)
(* ===================================================================== *)

Ltac js_step :=
  cbv [bind ret throw tryCatch tryFinally emit modifyUi consoleLog consoleError
       generateContent extend];
  cbn [ui trace fst snd].

Ltac js_norm :=
  cbn [ui trace messages input isContextEnabled isFactCheckEnabled isLoading];
  rewrite <- ?app_assoc; cbn [app].

(** Traces as right-nested appends of explicit effects. *)
Ltac trace_norm := repeat first [rewrite <- app_assoc | progress (cbn [app])].

Section Turn.

Context {JS : JsString}.
Variable env : Env.

Lemma classifyStatementType_frame (text : string) (w : World) :
  exists ty d,
    classifyStatementType env text w = (Normal ty, extend w d)
    /\ Forall verifierEffect d.
Proof.
  unfold classifyStatementType. js_step.
  destruct (genai_reply env (trace w) (classifyRequest text)) as [e|r] eqn:E.
  - js_norm. do 2 eexists. split; [reflexivity | repeat constructor].
  - destruct (Resp.text r) as [t|].
    + destruct (Js.includes _ _); js_norm; do 2 eexists;
        (split; [reflexivity | repeat constructor]).
    + js_norm. do 2 eexists. split; [reflexivity | repeat constructor].
Qed.

Lemma getFactCheckCorrection_frame (text : string) (w : World) :
  exists c d,
    getFactCheckCorrection env text w = (Normal c, extend w d)
    /\ Forall verifierEffect d.
Proof.
  unfold getFactCheckCorrection.
  destruct (classifyStatementType_frame text w) as (ty & d & Hc & Hd).
  unfold bind at 1. rewrite Hc. destruct ty.
  - js_step.
    destruct (genai_reply env (trace w ++ d) (factCheckRequest text)) as [e|r].
    + js_norm. do 2 eexists. split; [reflexivity|].
      apply Forall_app. split; [assumption | repeat constructor].
    + destruct (explicitlyCorrect _); js_norm; do 2 eexists;
        (split; [reflexivity|]); apply Forall_app; split;
        try assumption; repeat constructor.
  - js_step. js_norm. do 2 eexists. split; [reflexivity|].
    apply Forall_app. split; [assumption | repeat constructor].
Qed.

(** Every accepted submit runs the same course: the user message, the
    request, then either the [catch] block or the optional fact-check and
    the bot message, and in all cases the [finally] block. *)
Lemma turn_anatomy (w : World) :
  accepted w ->
  match generation (turnReply env w) with
  | inl e =>
      submit env w =
        (Normal tt,
         settle env (extend (sending env w)
                   [EConsoleError "Failed to fetch from LLM endpoint:" e])
                errorMessage)
  | inr text =>
      if isFactCheckEnabled (ui w) then
        exists c d,
          getFactCheckCorrection env text (sending env w)
            = (Normal c, extend (sending env w) d)
          /\ Forall verifierEffect d
          /\ submit env w = (Normal tt, settle env (extend (sending env w) d) (botMessage text c))
      else
        submit env w = (Normal tt, settle env (sending env w) (botMessage text None))
  end.
Proof.
  intros [Hin Hl]. apply JsFacts.truthy_true in Hin.
  unfold submit, handleSend.
  unfold bind at 1. unfold preventDefault, emit. cbn [ui trace].
  rewrite Hin, Hl. cbn [negb orb].
  unfold generation.
  cbv [bind ret throw tryCatch tryFinally emit modifyUi consoleError
       setMessages setInput setIsLoading Date_now fetch json].
  cbn [ui trace messages input isContextEnabled isFactCheckEnabled isLoading].
  rewrite <- !app_assoc. cbn [app].
  change (clock env (trace w ++ [EPreventDefault])) with (arrival env w).
  change (generationRequest _) with (turnRequest w).
  change (trace w ++ [EPreventDefault; ENow (arrival env w); ESetIsLoading true])
    with (sendingTrace env w).
  change (endpoint_reply env (sendingTrace env w) (turnRequest w)) with (turnReply env w).
  destruct (turnReply env w) as [e|r] eqn:Ereply.
  - unfold settle, extend, sending. cbn [ui trace messages input isContextEnabled
      isFactCheckEnabled isLoading]. rewrite Ereply.
    unfold sendingTrace, userMessage. rewrite <- !app_assoc. reflexivity.
  - destruct (ok r).
    2:{ unfold settle, extend, sending. cbn [ui trace messages input isContextEnabled
          isFactCheckEnabled isLoading]. rewrite Ereply.
        unfold sendingTrace, userMessage. rewrite <- !app_assoc. reflexivity. }
    destruct (body r) as [e|data].
    { unfold settle, extend, sending. cbn [ui trace messages input isContextEnabled
          isFactCheckEnabled isLoading]. rewrite Ereply.
        unfold sendingTrace, userMessage. rewrite <- !app_assoc. reflexivity. }
    destruct (Data.response data) as [[|c s]|].
    1,3: unfold settle, extend, sending; cbn [ui trace messages input isContextEnabled
          isFactCheckEnabled isLoading]; rewrite Ereply;
        unfold sendingTrace, userMessage; rewrite <- !app_assoc; reflexivity.
    destruct (isFactCheckEnabled (ui w)) eqn:Efc.
    + destruct (getFactCheckCorrection_frame (String c s) (sending env w))
        as (corr & d & Hg & Hd).
      exists corr, d. split; [exact Hg|]. split; [exact Hd|].
      unfold sending in Hg. rewrite Ereply, Efc in Hg.
      unfold sendingTrace, userMessage in Hg. rewrite <- !app_assoc in Hg.
      cbn [app] in Hg. rewrite Hg.
      unfold settle, extend, sending. cbn [ui trace messages input isContextEnabled
          isFactCheckEnabled isLoading]. rewrite Ereply, Efc.
      unfold sendingTrace, userMessage, botMessage. rewrite <- !app_assoc. reflexivity.
    + unfold settle, extend, sending. cbn [ui trace messages input isContextEnabled
          isFactCheckEnabled isLoading]. rewrite Ereply, Efc.
      unfold sendingTrace, userMessage, botMessage. rewrite <- !app_assoc. reflexivity.
Qed.

(** In short: every accepted submit ends in [settle], after the request
    and some effects of the classifier and the verifier, with a message
    whose id is the one [settle] hands it. *)
Lemma turn_settles (w : World) :
  accepted w ->
  exists d message,
    submit env w = (Normal tt, settle env (extend (sending env w) d) message)
    /\ (forall i, Msg.id (message i) = i)
    /\ (forall i, Msg.sender (message i) = bot).
Proof.
  intros Hacc. pose proof (turn_anatomy Hacc) as H.
  destruct (generation (turnReply env w)) as [e|text].
  - do 2 eexists. split; [exact H|]. split; reflexivity.
  - destruct (isFactCheckEnabled (ui w)).
    + destruct H as (c & d & _ & _ & H).
      do 2 eexists. split; [exact H|]. split; reflexivity.
    + exists [], (botMessage text None). split; [|split; reflexivity].
      rewrite H. unfold extend. now rewrite app_nil_r.
Qed.

(** The guard of line 157, as the code tests it. *)
Lemma guard_rejects (w : World) :
  negb (Js.truthy (trim (input (ui w)))) || isLoading (ui w) = true ->
  submit env w = (Normal tt, extend w [EPreventDefault]).
Proof.
  intros H. unfold submit, handleSend.
  unfold bind at 1. unfold preventDefault, emit. cbn [ui trace].
  rewrite H. reflexivity.
Qed.

End Turn.

(* ===================================================================== *)
(** ** The pipeline's guard, cleanup and failure paths *)
(* ===================================================================== *)

Lemma verifierEffect_notSetIsLoading (d : list Effect) :
  Forall verifierEffect d -> Forall notSetIsLoading d.
Proof.
  apply Forall_impl. intros [] H; simpl in *; tauto.
Qed.

Lemma skipn_length_app {A : Type} (l d : list A) : skipn (length l) (l ++ d) = d.
Proof.
  induction l as [|x l IH]; simpl; auto.
Qed.

Section Pipeline.

Context {JS : JsString}.
Variable env : Env.

(** The effects of a turn are what [submit] adds to the trace. *)
Lemma turnEffects_of (w w' : World) (c : Completion unit) (d : list Effect) :
  submit env w = (c, w') -> trace w' = trace w ++ d -> turnEffects env w = d.
Proof.
  intros Hs Ht. unfold turnEffects. rewrite Hs. cbn [snd]. rewrite Ht.
  apply skipn_length_app.
Qed.

(** C2. A submit while the flag is set, or with an input that trims to the
    empty string, completes normally and changes nothing: the React state
    (conversation, input, toggles, flag) is the one before, and the only
    effect is the [preventDefault] on the event, so no call goes to a
    backend. *)
Theorem submit_rejected_no_effect (w : World) :
  isLoading (ui w) = true \/ trim (input (ui w)) = ""%string ->
  submit env w = (Normal tt, {| ui := ui w; trace := trace w ++ [EPreventDefault] |}).
Proof.
  intros H. apply guard_rejects. apply orb_true_iff.
  destruct H as [H|H].
  - now right.
  - left. apply JsFacts.truthy_false in H. now rewrite H.
Qed.

(** C1. Every submit the guard accepts completes normally.  Its effects
    start with the write of [true] to the loading flag (after the event
    and the clock are read, before any call), end with the write of
    [false], and write the flag nowhere in between; the flag is [false] in
    the final state.  This holds whatever the endpoint and the Gemini SDK
    answer or throw. *)
Theorem submit_always_settles (w : World) :
  accepted w ->
  exists w' during,
    submit env w = (Normal tt, w')
    /\ trace w' = trace w
                  ++ [EPreventDefault; ENow (arrival env w); ESetIsLoading true]
                  ++ during ++ [ESetIsLoading false]
    /\ Forall notSetIsLoading during
    /\ isLoading (ui w') = false.
Proof.
  intros Hacc. pose proof (turn_anatomy env Hacc) as H.
  destruct (generation (turnReply env w)) as [e|text].
  - eexists. eexists (_ :: _ :: _ :: nil). split; [exact H|].
    unfold settle, extend, sending, sendingTrace.
    cbn [ui trace isLoading]. trace_norm.
    split; [reflexivity|]. split; [|reflexivity].
    repeat constructor.
  - destruct (isFactCheckEnabled (ui w)).
    + destruct H as (c & d & _ & Hd & H).
      eexists. exists (EFetch (turnRequest w) (turnReply env w)
                        :: d ++ [ENow (clock env (trace (sending env w) ++ d))]).
      split; [exact H|].
      unfold settle, extend, sending, sendingTrace.
      cbn [ui trace isLoading]. trace_norm.
      split; [reflexivity|]. split; [|reflexivity].
      constructor; [exact I|]. apply Forall_app. split.
      * now apply verifierEffect_notSetIsLoading.
      * repeat constructor.
    + eexists. eexists (_ :: _ :: nil). split; [exact H|].
      unfold settle, extend, sending, sendingTrace.
      cbn [ui trace isLoading]. trace_norm.
      split; [reflexivity|]. split; [|reflexivity].
      repeat constructor.
Qed.

(** C7. In a turn whose request is answered with a status outside 200-299,
    or with a success status and a parsed body whose [response] member is
    missing or the empty string, the conversation grows by the user
    message and one bot message: the apology, flagged as an error, with no
    correction.  No call of the Gemini SDK (classification or
    verification) is among the turn's effects, and the flag is cleared. *)
Theorem generation_failure_turn (w : World) (r : HttpResponse) :
  accepted w ->
  turnReply env w = FetchResolved r ->
  (ok r = false
   \/ exists data,
        ok r = true /\ body r = Json data
        /\ (Data.response data = None \/ Data.response data = Some ""%string)) ->
  exists w' id,
    submit env w = (Normal tt, w')
    /\ messages (ui w')
       = messages (ui w)
         ++ [userMessage env w;
             {| Msg.id := id; Msg.text := apology; Msg.sender := bot;
                Msg.correction := None; Msg.isError := true |}]
    /\ Forall notGenerateContent (turnEffects env w)
    /\ isLoading (ui w') = false.
Proof.
  intros Hacc Hreply Hfail. pose proof (turn_anatomy env Hacc) as H.
  assert (Hgen : exists e, generation (turnReply env w) = inl e).
  { rewrite Hreply. unfold generation.
    destruct Hfail as [Hok | (data & Hok & Hbody & [Hr | Hr])];
      rewrite Hok; [eauto | rewrite Hbody, Hr; eauto ..]. }
  destruct Hgen as [e Hgen]. rewrite Hgen in H.
  do 2 eexists. split; [exact H|].
  unfold settle, extend, sending. cbn [ui trace messages isLoading].
  trace_norm.
  split; [reflexivity|]. split; [|reflexivity].
  erewrite turnEffects_of; [| exact H |].
  2:{ unfold settle, extend, sending, sendingTrace. cbn [ui trace].
      trace_norm. reflexivity. }
  repeat constructor.
Qed.

(** C8. In a turn with the verification toggle off whose request is
    answered with a success status and a non-empty [response], the
    conversation grows by the user message and the bot message carrying
    that response with no correction, and no call of the Gemini SDK is
    among the turn's effects. *)
Theorem fact_check_disabled_turn (w : World) (r : HttpResponse)
    (data : Data.t) (text : string) :
  accepted w ->
  isFactCheckEnabled (ui w) = false ->
  turnReply env w = FetchResolved r ->
  ok r = true ->
  body r = Json data ->
  Data.response data = Some text ->
  text <> ""%string ->
  exists w' id,
    submit env w = (Normal tt, w')
    /\ messages (ui w')
       = messages (ui w)
         ++ [userMessage env w;
             {| Msg.id := id; Msg.text := text; Msg.sender := bot;
                Msg.correction := None; Msg.isError := false |}]
    /\ Forall notGenerateContent (turnEffects env w).
Proof.
  intros Hacc Hfc Hreply Hok Hbody Hr Hne. pose proof (turn_anatomy env Hacc) as H.
  assert (Hgen : generation (turnReply env w) = inr text).
  { rewrite Hreply. unfold generation. rewrite Hok, Hbody, Hr.
    destruct text; [now elim Hne | reflexivity]. }
  rewrite Hgen, Hfc in H.
  do 2 eexists. split; [exact H|].
  unfold settle, extend, sending, botMessage. cbn [ui trace messages].
  trace_norm.
  split; [reflexivity|].
  erewrite turnEffects_of; [| exact H |].
  2:{ unfold settle, sending, sendingTrace. cbn [ui trace].
      trace_norm. reflexivity. }
  repeat constructor.
Qed.

End Pipeline.

(* ===================================================================== *)
(** ** The classifier and the verifier *)
(* ===================================================================== *)

Lemma fragments_filter (ps : list Part.t) :
  map partText (filter (fun part => Js.truthyOpt (Part.text part)) ps) = fragments ps.
Proof.
  induction ps as [|p ps IH]; [reflexivity|].
  cbn [filter fragments]. destruct p as [[[|c s]|]]; cbn; now rewrite ?IH.
Qed.

Section Verifier.

Context {JS : JsString}.
Variable env : Env.

(** Lines 114-120 gather the fragments of the first candidate. *)
Lemma candidateText_fragments (r : Resp.t) :
  candidateText r =
    match fragments (firstCandidateParts r) with
    | [] => ""%string
    | fs => trim (Js.join " " fs)
    end.
Proof.
  unfold candidateText, firstCandidateParts, candidateParts.
  destruct (Resp.candidates r) as [[|c0 cs]|]; try reflexivity.
  destruct (content c0) as [ct|]; try reflexivity.
  destruct (parts ct) as [ps|]; try reflexivity.
  rewrite <- fragments_filter.
  destruct (filter _ ps); reflexivity.
Qed.

(** The test of lines 132-134 in the words of the specification. *)
Lemma explicitlyCorrect_spec (g : string) :
  explicitlyCorrect g = true
  <-> (toUpperCase g = "CORRECT"%string
       \/ Js.Contains (toLowerCase g) "the statement is correct"
       \/ Js.Contains (toLowerCase g) "this is accurate").
Proof.
  unfold explicitlyCorrect.
  rewrite !orb_true_iff, String.eqb_eq, !JsFacts.includes_Contains. tauto.
Qed.

(** What the classifier does with each answer of the SDK. *)
Lemma classifyStatementType_run (text : string) (w : World) :
  let req := classifyRequest text in
  classifyStatementType env text w =
    match genai_reply env (trace w) req with
    | GenRejected e =>
        (Normal OPINION,
         extend w [EGenerateContent req (GenRejected e);
                   EConsoleError "Error in classifying statement:" e])
    | GenResolved r =>
        match Resp.text r with
        | Some t =>
            (Normal (if Js.includes (toUpperCase (trim t)) "FACT" then FACT else OPINION),
             extend w [EGenerateContent req (GenResolved r)])
        | None =>
            (Normal OPINION,
             extend w [EGenerateContent req (GenResolved r);
                       EConsoleError "Error in classifying statement:"
                         (TypeError "response.text")])
        end
    end.
Proof.
  unfold classifyStatementType. js_step.
  destruct (genai_reply env (trace w) (classifyRequest text)) as [e|r].
  - cbn [ui trace]. now trace_norm.
  - destruct (Resp.text r) as [t|].
    + now destruct (Js.includes _ _).
    + cbn [ui trace]. now trace_norm.
Qed.

(** What the verifier does once the statement is classified a fact. *)
Lemma getFactCheckCorrection_fact (statement : string) (w w1 : World) :
  classifyStatementType env statement w = (Normal FACT, w1) ->
  let req := factCheckRequest statement in
  getFactCheckCorrection env statement w =
    match genai_reply env (trace w1) req with
    | GenRejected e =>
        (Normal (Some unavailableNotice),
         extend w1 [EGenerateContent req (GenRejected e);
                    EConsoleError "Error during Gemini fact-checking:" e])
    | GenResolved r =>
        (Normal (if explicitlyCorrect (groundedResponse r)
                 then None else Some (groundedResponse r)),
         extend w1 [EGenerateContent req (GenResolved r)])
    end.
Proof.
  intros Hc. unfold getFactCheckCorrection.
  unfold bind at 1. rewrite Hc. js_step.
  destruct (genai_reply env (trace w1) (factCheckRequest statement)) as [e|r].
  - cbn [ui trace]. now trace_norm.
  - now destruct (explicitlyCorrect _).
Qed.

(** An opinion is not verified: no second call is made. *)
Lemma getFactCheckCorrection_opinion (statement : string) (w w1 : World) :
  classifyStatementType env statement w = (Normal OPINION, w1) ->
  getFactCheckCorrection env statement w =
    (Normal (Some opinionNotice), extend w1 [EConsoleLog opinionNotice]).
Proof.
  intros Hc. unfold getFactCheckCorrection.
  unfold bind at 1. rewrite Hc. js_step. reflexivity.
Qed.

(** C5. The classifier completes normally on every answer of the SDK.
    When the answer carries a text, the result is FACT exactly when the
    trimmed, upper-cased text contains FACT, and OPINION exactly when it
    does not; when the call is rejected, or the answer carries no text (so
    that reading it throws), the result is OPINION. *)
Theorem classify_policy (text : string) (w : World) :
  let reply := genai_reply env (trace w) (classifyRequest text) in
  let result := fst (classifyStatementType env text w) in
  (forall r t,
      reply = GenResolved r -> Resp.text r = Some t ->
      (result = Normal FACT <-> Js.Contains (toUpperCase (trim t)) "FACT")
      /\ (result = Normal OPINION <-> ~ Js.Contains (toUpperCase (trim t)) "FACT"))
  /\ (forall e, reply = GenRejected e -> result = Normal OPINION)
  /\ (forall r, reply = GenResolved r -> Resp.text r = None -> result = Normal OPINION).
Proof.
  cbv zeta. rewrite classifyStatementType_run. cbv zeta.
  split; [|split].
  - intros r t -> ->. cbn [fst].
    rewrite <- JsFacts.includes_Contains.
    destruct (Js.includes _ _); split; split; congruence.
  - intros e ->. reflexivity.
  - intros r -> ->. reflexivity.
Qed.

(** C3. When the statement was classified a fact and the verification call
    answers, the verifier returns [null] if the extracted text upper-cased
    equals CORRECT, or lower-cased contains one of the two phrases; in
    every other case it returns the extracted text itself. *)
Theorem verifier_outcome (statement : string) (w w1 : World) (r : Resp.t) :
  classifyStatementType env statement w = (Normal FACT, w1) ->
  genai_reply env (trace w1) (factCheckRequest statement) = GenResolved r ->
  let extracted := groundedResponse r in
  let confirmed :=
    toUpperCase extracted = "CORRECT"%string
    \/ Js.Contains (toLowerCase extracted) "the statement is correct"
    \/ Js.Contains (toLowerCase extracted) "this is accurate" in
  (confirmed -> fst (getFactCheckCorrection env statement w) = Normal None)
  /\ (~ confirmed ->
      fst (getFactCheckCorrection env statement w) = Normal (Some extracted)).
Proof.
  intros Hc Hr. cbv zeta.
  rewrite (getFactCheckCorrection_fact statement w Hc). cbv zeta. rewrite Hr. cbn [fst].
  rewrite <- explicitlyCorrect_spec.
  destruct (explicitlyCorrect _); split; intros H; congruence.
Qed.

Lemma groundedResponse_text (r : Resp.t) (t : string) :
  Resp.text r = Some t -> t <> ""%string -> groundedResponse r = trim t.
Proof.
  intros Ht Hne. unfold groundedResponse. rewrite Ht.
  destruct t; [now elim Hne | reflexivity].
Qed.

Lemma groundedResponse_no_text (r : Resp.t) :
  noDirectText r ->
  groundedResponse r =
    if hasFunctionCalls r then
      if Js.truthy (candidateText r) then candidateText r else technicalFallback
    else unverifiedFallback.
Proof.
  intros [H|H]; unfold groundedResponse; rewrite H; reflexivity.
Qed.

(** C4, as amended.  When the statement was classified a fact:
    - if the verification call answers, the verifier decides on the text
      extracted as follows.  A non-empty direct text is used, trimmed.
      Without direct text but with a non-empty list of function calls,
      the non-empty text fragments of the parts of the first candidate
      are joined with single spaces and the result is trimmed; when there
      is no such fragment, or the trimmed result is empty, the text is the
      technical-limitations fallback.  Without direct text and without
      function calls the text is the unable-to-verify fallback.
    - if the verification call throws, the verifier completes normally
      with the service-unavailable text as the correction, after logging
      the error; and the turn that asked for the verification still
      completes normally and appends the bot message with the generated
      text and that correction. *)
Theorem extraction_policy (statement : string) (w w1 : World) :
  classifyStatementType env statement w = (Normal FACT, w1) ->
  let req := factCheckRequest statement in
  let reply := genai_reply env (trace w1) req in
  (forall r,
      reply = GenResolved r ->
      let extracted := groundedResponse r in
      let fs := fragments (firstCandidateParts r) in
      let joined := trim (Js.join " " fs) in
      fst (getFactCheckCorrection env statement w)
        = Normal (if explicitlyCorrect extracted then None else Some extracted)
      /\ (forall t, Resp.text r = Some t -> t <> ""%string -> extracted = trim t)
      /\ (noDirectText r ->
          (exists call calls, Resp.functionCalls r = Some (call :: calls)) ->
          (fs = [] -> extracted = technicalFallback)
          /\ (fs <> [] -> joined = ""%string -> extracted = technicalFallback)
          /\ (fs <> [] -> joined <> ""%string -> extracted = joined))
      /\ (noDirectText r ->
          Resp.functionCalls r = None \/ Resp.functionCalls r = Some [] ->
          extracted = unverifiedFallback))
  /\ (forall e,
        reply = GenRejected e ->
        getFactCheckCorrection env statement w
          = (Normal (Some unavailableNotice),
             extend w1 [EGenerateContent req (GenRejected e);
                        EConsoleError "Error during Gemini fact-checking:" e])
        /\ (forall w0,
              accepted w0 ->
              isFactCheckEnabled (ui w0) = true ->
              generation (turnReply env w0) = inr statement ->
              w = sending env w0 ->
              exists id,
                fst (submit env w0) = Normal tt
                /\ messages (ui (snd (submit env w0)))
                   = messages (ui w0)
                     ++ [userMessage env w0;
                         {| Msg.id := id; Msg.text := statement; Msg.sender := bot;
                            Msg.correction := Some unavailableNotice;
                            Msg.isError := false |}])).
Proof.
  intros Hc. cbv zeta.
  pose proof (getFactCheckCorrection_fact statement w Hc) as Hrun. cbv zeta in Hrun.
  split.
  - intros r Hr. rewrite Hrun, Hr. cbn [fst]. split; [reflexivity|].
    split; [|split].
    + apply groundedResponse_text.
    + intros Hno (call & calls & Hcalls).
      rewrite (groundedResponse_no_text Hno). unfold hasFunctionCalls.
      rewrite Hcalls, candidateText_fragments.
      destruct (fragments (firstCandidateParts r)) as [|f fs'].
      * repeat split; intros; congruence.
      * repeat split; intros H; try congruence.
        -- intros Hj. apply JsFacts.truthy_false in Hj. now rewrite Hj.
        -- intros Hj. apply JsFacts.truthy_true in Hj. now rewrite Hj.
    + intros Hno Hcalls.
      rewrite (groundedResponse_no_text Hno). unfold hasFunctionCalls.
      destruct Hcalls as [-> | ->]; reflexivity.
  - intros e He. rewrite He in Hrun. split; [exact Hrun|].
    intros w0 Hacc Hfc Hgen Hw. subst w.
    pose proof (turn_anatomy env Hacc) as H. rewrite Hgen, Hfc in H.
    destruct H as (c & d & Hg & _ & Hs).
    rewrite Hrun in Hg. injection Hg as <- _.
    rewrite Hs. cbn [fst snd]. eexists. split; [reflexivity|].
    unfold settle, extend, sending, botMessage. cbn [ui trace messages].
    rewrite <- app_assoc. reflexivity.
Qed.

End Verifier.

(* ===================================================================== *)
(** ** The context window *)
(* ===================================================================== *)

Section ContextWindow.

Context {JS : JsString}.
Variable env : Env.

(** Line 159: a question mark is appended unless the trimmed input ends
    with one. *)
Lemma processedInput_spec (i : string) :
  ((exists pre, trim i = (pre ++ "?")%string) -> processedInput i = trim i)
  /\ (~ (exists pre, trim i = (pre ++ "?")%string) ->
      processedInput i = (trim i ++ "?")%string).
Proof.
  unfold processedInput. rewrite <- JsFacts.endsWith_spec.
  destruct (Js.endsWith _ _); split; intros H; congruence.
Qed.

(** With the toggle on, the prompt is the template over the last four
    messages of the array it is given. *)
Lemma promptWithContext_window (history : list Msg.t) (question : string) :
  exists older window,
    history = older ++ window
    /\ length window = Nat.min 4 (length history)
    /\ promptWithContext true history question
       = contextTemplate (map Msg.text window) question.
Proof.
  destruct (@JsFacts.slice_last Msg.t 4 history) as (older & Hsplit & Hlen); [lia|].
  exists older, (Js.slice (-4) history). repeat split; assumption.
Qed.

(** Every accepted turn sends one request to the endpoint, first of all
    its calls, and appends the user message and one bot message. *)
Lemma turn_request_sent (w : World) :
  accepted w ->
  exists w' rest reply_message,
    submit env w = (Normal tt, w')
    /\ trace w' = trace w
                  ++ [EPreventDefault; ENow (arrival env w); ESetIsLoading true;
                      EFetch (turnRequest w) (turnReply env w)]
                  ++ rest
    /\ messages (ui w') = messages (ui w) ++ [userMessage env w; reply_message].
Proof.
  intros Hacc. pose proof (turn_anatomy env Hacc) as H.
  destruct (generation (turnReply env w)) as [e|text].
  - do 3 eexists. split; [exact H|].
    unfold settle, extend, sending, sendingTrace. cbn [ui trace messages].
    trace_norm. split; reflexivity.
  - destruct (isFactCheckEnabled (ui w)).
    + destruct H as (c & d & _ & _ & H).
      do 3 eexists. split; [exact H|].
      unfold settle, extend, sending, sendingTrace. cbn [ui trace messages].
      trace_norm. split; reflexivity.
    + do 3 eexists. split; [exact H|].
      unfold settle, extend, sending, sendingTrace. cbn [ui trace messages].
      trace_norm. split; reflexivity.
Qed.

(** C6. The request an accepted turn sends carries, with the context
    toggle on, the template over the texts of the last four messages of
    the conversation (all of them when there are fewer), in their order
    and joined by a blank line, followed by the processed input as the
    current question; with the toggle off it carries the processed input
    alone. *)
Theorem built_prompt (w : World) :
  accepted w ->
  exists w' reply rest sent,
    submit env w = (Normal tt, w')
    /\ trace w' = trace w
                  ++ [EPreventDefault; ENow (arrival env w); ESetIsLoading true;
                      EFetch (generationRequest sent) reply]
                  ++ rest
    /\ (isContextEnabled (ui w) = true ->
        exists older window,
          messages (ui w) = older ++ window
          /\ length window = Nat.min 4 (length (messages (ui w)))
          /\ sent = ("Previous conversation:" ++ Js.nl
                     ++ Js.join (Js.nl ++ Js.nl) (map Msg.text window)
                     ++ Js.nl ++ Js.nl ++ "Current question: "
                     ++ processedInput (input (ui w)))%string)
    /\ (isContextEnabled (ui w) = false -> sent = processedInput (input (ui w))).
Proof.
  intros Hacc.
  destruct (turn_request_sent Hacc) as (w' & rest & m & Hs & Ht & _).
  exists w', (turnReply env w), rest,
    (promptWithContext (isContextEnabled (ui w)) (messages (ui w))
       (processedInput (input (ui w)))).
  split; [exact Hs|]. split; [exact Ht|]. split.
  - intros ->.
    destruct (promptWithContext_window (messages (ui w)) (processedInput (input (ui w))))
      as (older & window & H1 & H2 & H3).
    exists older, window. repeat split; assumption.
  - intros ->. reflexivity.
Qed.

(** C10. With the context toggle on, the window of an accepted turn is
    taken from the conversation as it stood when the submit arrived: it is
    the tail of at most four messages of that conversation, the user
    message of the turn comes after it in the final conversation, and in
    the conversation that holds only the greeting the window is the
    greeting. *)
Theorem context_is_start_of_turn (w : World) :
  accepted w ->
  isContextEnabled (ui w) = true ->
  exists w' reply rest older window reply_message,
    submit env w = (Normal tt, w')
    /\ messages (ui w) = older ++ window
    /\ length window = Nat.min 4 (length (messages (ui w)))
    /\ trace w' = trace w
                  ++ [EPreventDefault; ENow (arrival env w); ESetIsLoading true;
                      EFetch (generationRequest
                                (contextTemplate (map Msg.text window)
                                   (processedInput (input (ui w)))))
                             reply]
                  ++ rest
    /\ messages (ui w') = older ++ window ++ [userMessage env w; reply_message]
    /\ (messages (ui w) = [greeting] -> window = [greeting]).
Proof.
  intros Hacc Hctx.
  destruct (turn_request_sent Hacc) as (w' & rest & m & Hs & Ht & Hm).
  destruct (promptWithContext_window (messages (ui w)) (processedInput (input (ui w))))
    as (older & window & H1 & H2 & H3).
  exists w', (turnReply env w), rest, older, window, m.
  split; [exact Hs|]. split; [exact H1|]. split; [exact H2|]. split; [|split].
  - rewrite Ht. unfold turnRequest. rewrite Hctx, H3. reflexivity.
  - rewrite Hm, H1 at 1. now rewrite <- app_assoc.
  - intros Hg. rewrite Hg in H1, H2. cbn in H2.
    destruct older as [|x older].
    + now rewrite H1.
    + apply (f_equal (@length _)) in H1. rewrite length_app in H1. cbn in H1. lia.
Qed.

End ContextWindow.

(* ===================================================================== *)
(** ** The page and its invariants *)
(* ===================================================================== *)

Section Page.

Context {JS : JsString}.
Variable env : Env.

(** A submit is either stopped at the guard or runs a whole turn. *)
Lemma submit_cases (w : World) :
  (View.submitDisabled (render (ui w)) = true
   /\ submit env w = (Normal tt, extend w [EPreventDefault]))
  \/ (View.submitDisabled (render (ui w)) = false
      /\ accepted w
      /\ exists d message,
           submit env w = (Normal tt, settle env (extend (sending env w) d) message)
           /\ (forall i, Msg.id (message i) = i)
           /\ (forall i, Msg.sender (message i) = bot)).
Proof.
  cbn [render View.submitDisabled].
  destruct (isLoading (ui w)) eqn:Hl.
  - left. split; [reflexivity|]. apply guard_rejects. rewrite Hl. apply orb_true_r.
  - destruct (Js.truthy (trim (input (ui w)))) eqn:Hin.
    + right. split; [reflexivity|].
      assert (Hacc : accepted w).
      { split; [now apply JsFacts.truthy_true | exact Hl]. }
      split; [exact Hacc|]. apply (turn_settles env Hacc).
    + left. split; [reflexivity|]. apply guard_rejects. now rewrite Hin.
Qed.

(** X1. The submit button and the guard of [handleSend] agree.  When the
    page shows the button disabled, a submit changes nothing but the
    event; when it shows the button enabled, the submit completes
    normally, adds two rows to the chat window and empties the input
    field. *)
Theorem submit_button_matches_guard (w : World) :
  (View.submitDisabled (render (ui w)) = true ->
   submit env w = (Normal tt, {| ui := ui w; trace := trace w ++ [EPreventDefault] |}))
  /\ (View.submitDisabled (render (ui w)) = false ->
      exists w',
        submit env w = (Normal tt, w')
        /\ length (View.rows (render (ui w'))) = (length (View.rows (render (ui w))) + 2)%nat
        /\ View.inputValue (render (ui w')) = ""%string).
Proof.
  destruct (submit_cases w) as [[Hd Hs] | (Hd & _ & d & message & Hs & _)];
    rewrite Hd; split; intros H; try discriminate H.
  - exact Hs.
  - eexists. split; [exact Hs|].
    cbn [render View.rows View.inputValue settle extend sending ui messages input].
    rewrite !length_map, !length_app. cbn [length]. split; [lia | reflexivity].
Qed.

(** An invariant of the page is kept by every sequence of events once
    every single event keeps it. *)
Lemma run_invariant (P : World -> Prop) :
  (forall a w, P w -> P (snd (dispatch env a w))) ->
  forall actions w, P w -> P (run env actions w).
Proof.
  intros Hstep actions. induction actions as [|a actions IH]; intros w Hw; cbn [run].
  - exact Hw.
  - apply IH, Hstep, Hw.
Qed.

(** Typing and the two switches leave the conversation, the flag and the
    trace alone. *)
Lemma dispatch_cases (a : Action) (w : World) :
  a = Submit
  \/ (messages (ui (snd (dispatch env a w))) = messages (ui w)
      /\ isLoading (ui (snd (dispatch env a w))) = isLoading (ui w)
      /\ trace (snd (dispatch env a w)) = trace w).
Proof.
  destruct a; [right | right | right | left]; try reflexivity; repeat split.
Qed.



(** X2. The conversation is append-only: after any sequence of events,
    from any state of the page, the messages are those before followed by
    the added ones; none is changed, dropped or reordered. *)
Theorem conversation_only_grows (actions : list Action) (w : World) :
  exists added,
    messages (ui (run env actions w)) = messages (ui w) ++ added.
Proof.
  revert w. induction actions as [|a actions IH]; intros w; cbn [run].
  - exists []. now rewrite app_nil_r.
  - destruct (IH (snd (dispatch env a w))) as [added Hadded]. rewrite Hadded.
    destruct (dispatch_cases a w) as [-> | (Hm & _)].
    + cbn [dispatch].
      destruct (submit_cases w) as [[_ Hs] | (_ & _ & d & message & Hs & _)];
        rewrite Hs; cbn [snd].
      * now exists added.
      * eexists. unfold settle, extend, sending. cbn [ui messages].
        rewrite <- !app_assoc. reflexivity.
    + rewrite Hm. now exists added.
Qed.


(** X4. After any sequence of events from the first render the page
    shows no loading row and the input field is enabled. *)
Theorem page_never_left_loading (actions : list Action) :
  let page := render (ui (run env actions initialWorld)) in
  View.loadingRow page = false /\ View.inputDisabled page = false.
Proof.
  cbv zeta. cbn [render View.loadingRow View.inputDisabled].
  assert (H : isLoading (ui (run env actions initialWorld)) = false).
  { apply (run_invariant (fun w => isLoading (ui w) = false)); [|reflexivity].
    intros a w Hw. destruct (dispatch_cases a w) as [-> | (_ & Hl & _)].
    - cbn [dispatch].
      destruct (submit_cases w) as [[_ Hs] | (_ & _ & d & message & Hs & _)];
        rewrite Hs; cbn [snd]; [exact Hw | reflexivity].
    - now rewrite Hl. }
  now rewrite H.
Qed.

(** X5. A submit, accepted or not, leaves the two switches and the
    disclaimer as they were. *)
Theorem submit_keeps_switches (w : World) :
  let before := render (ui w) in
  let after := render (ui (snd (submit env w))) in
  View.contextSwitch after = View.contextSwitch before
  /\ View.factCheckSwitch after = View.factCheckSwitch before
  /\ View.disclaimer after = View.disclaimer before.
Proof.
  cbv zeta.
  destruct (submit_cases w) as [[_ Hs] | (_ & _ & d & message & Hs & _)];
    rewrite Hs; cbn [snd]; repeat split.
Qed.

Section PositiveClock.

(** The clock reads a time after the epoch. *)
Hypothesis positive : forall tr, 0 < clock env tr.

(** X6. When the clock reads a time after the epoch, then after any
    sequence of events from the first render the play button is on the
    first row of the chat window and on no other row. *)
Theorem play_button_only_on_greeting (actions : list Action) :
  exists first others,
    View.rows (render (ui (run env actions initialWorld))) = first :: others
    /\ View.playButton first = true
    /\ Forall (fun row => View.playButton row = false) others.
Proof.
  assert (H : exists rest,
             messages (ui (run env actions initialWorld)) = greeting :: rest
             /\ Forall (fun m => View.playButton (renderMessage m) = false) rest).
  { apply (run_invariant
             (fun w => exists rest,
                messages (ui w) = greeting :: rest
                /\ Forall (fun m => View.playButton (renderMessage m) = false) rest)).
    - intros a w (rest & Hm & Hr).
      destruct (dispatch_cases a w) as [-> | (Hm' & _)].
      + cbn [dispatch].
        destruct (submit_cases w) as [[_ Hs] | (_ & _ & d & message & Hs & Hid & Hbot)];
          rewrite Hs; cbn [snd].
        * exists rest. now split.
        * eexists. split.
          -- unfold settle, extend, sending. cbn [ui messages].
             rewrite Hm, <- !app_assoc. cbn [app]. reflexivity.
          -- apply Forall_app. split; [exact Hr|].
             constructor; [reflexivity|]. constructor; [|constructor].
             cbn [renderMessage View.playButton]. rewrite Hbot, Hid.
             apply Z.eqb_neq.
             match goal with
             | |- context [clock env ?tr] => pose proof (positive tr)
             end. lia.
      + exists rest. rewrite Hm'. now split.
    - exists []. split; [reflexivity | constructor]. }
  destruct H as (rest & Hm & Hr).
  exists (renderMessage greeting), (map renderMessage rest).
  cbn [render View.rows]. rewrite Hm. cbn [map]. split; [reflexivity|].
  split; [reflexivity|]. now apply Forall_map.
Qed.

End PositiveClock.

End Page.

(* ===================================================================== *)
(** ** More on the turn *)
(* ===================================================================== *)

Lemma backendCalls_app (a b : list Effect) :
  backendCalls (a ++ b) = backendCalls a ++ backendCalls b.
Proof.
  induction a as [|e a IH]; [reflexivity|].
  destruct e; cbn [app backendCalls]; rewrite IH; reflexivity.
Qed.

Lemma slice_after_exchange {A : Type} (l : list A) (u b : A) :
  exists earlier,
    Js.slice (-4) (l ++ [u; b]) = earlier ++ [u; b] /\ (length earlier <= 2)%nat.
Proof.
  exists (Js.slice (-2) l). unfold Js.slice. cbn [Z.ltb Z.compare].
  rewrite length_app. cbn [length].
  rewrite skipn_app.
  replace (Z.to_nat (Z.max (Z.of_nat (length l + 2) + -4) 0) - length l)%nat with 0%nat by lia.
  replace (Z.to_nat (Z.max (Z.of_nat (length l + 2) + -4) 0))
    with (Z.to_nat (Z.max (Z.of_nat (length l) + -2) 0)) by lia.
  cbn [skipn]. split; [reflexivity|]. rewrite length_skipn. lia.
Qed.

Lemma extend_extend (w : World) (a b : list Effect) :
  extend (extend w a) b = extend w (a ++ b).
Proof.
  unfold extend. cbn [ui trace]. now rewrite app_assoc.
Qed.

Section Turns.

Context {JS : JsString}.
Variable env : Env.

(** The calls of the classifier and the verifier: the classification, and
    after it the verification when the statement was classified a fact. *)
Lemma getFactCheckCorrection_calls (text : string) (w : World) (c : option string)
    (d : list Effect) :
  getFactCheckCorrection env text w = (Normal c, extend w d) ->
  backendCalls d = [GenerateCall (classifyRequest text)]
  \/ backendCalls d = [GenerateCall (classifyRequest text);
                       GenerateCall (factCheckRequest text)].
Proof.
  intros H.
  pose proof (classifyStatementType_run env text w) as Hc. cbv zeta in Hc.
  assert (Hcls : exists ty dc,
             classifyStatementType env text w = (Normal ty, extend w dc)
             /\ backendCalls dc = [GenerateCall (classifyRequest text)]).
  { destruct (genai_reply env (trace w) (classifyRequest text)) as [e|r].
    - do 2 eexists. split; [exact Hc | reflexivity].
    - destruct (Resp.text r); do 2 eexists; (split; [exact Hc | reflexivity]). }
  destruct Hcls as (ty & dc & Hcls & Hdc). destruct ty.
  - pose proof (getFactCheckCorrection_fact env text w Hcls) as Hf. cbv zeta in Hf.
    rewrite Hf in H. right.
    destruct (genai_reply env (trace (extend w dc)) (factCheckRequest text));
      rewrite extend_extend in H; injection H as _ H; apply app_inv_head in H;
      subst d; rewrite backendCalls_app, Hdc; reflexivity.
  - rewrite (getFactCheckCorrection_opinion env text w Hcls), extend_extend in H. left.
    injection H as _ H. apply app_inv_head in H.
    subst d. rewrite backendCalls_app, Hdc. reflexivity.
Qed.

Lemma turnEffects_settle (w : World) (d : list Effect) (message : Z -> Msg.t) :
  submit env w = (Normal tt, settle env (extend (sending env w) d) message) ->
  exists now2,
    turnEffects env w
    = [EPreventDefault; ENow (arrival env w); ESetIsLoading true;
       EFetch (turnRequest w) (turnReply env w)]
      ++ d ++ [ENow now2; ESetIsLoading false].
Proof.
  intros Hs. eexists. unfold turnEffects. rewrite Hs. cbn [snd].
  unfold settle, extend, sending, sendingTrace. cbn [ui trace].
  rewrite <- !app_assoc. cbn [app]. rewrite skipn_length_app. reflexivity.
Qed.

(** X7. An accepted turn calls the backends in sequence and at most three
    times: the request to the endpoint alone; or, with verification on and
    a generated text, that request and the classification of the text; or
    these two and the verification of the same text. *)
Theorem turn_backend_calls (w : World) :
  accepted w ->
  let calls := backendCalls (turnEffects env w) in
  calls = [FetchCall (turnRequest w)]
  \/ exists text,
       generation (turnReply env w) = inr text
       /\ isFactCheckEnabled (ui w) = true
       /\ (calls = [FetchCall (turnRequest w); GenerateCall (classifyRequest text)]
           \/ calls = [FetchCall (turnRequest w); GenerateCall (classifyRequest text);
                       GenerateCall (factCheckRequest text)]).
Proof.
  intros Hacc. cbv zeta. pose proof (turn_anatomy env Hacc) as H.
  destruct (generation (turnReply env w)) as [e|text] eqn:Hgen.
  - left. destruct (@turnEffects_settle _ _ _ H) as [now2 ->]. reflexivity.
  - destruct (isFactCheckEnabled (ui w)) eqn:Hfc.
    + destruct H as (c & d & Hg & _ & Hs). right. exists text.
      split; [reflexivity|]. split; [reflexivity|].
      destruct (@turnEffects_settle _ _ _ Hs) as [now2 ->].
      cbn [app backendCalls]. rewrite backendCalls_app. cbn [backendCalls].
      rewrite app_nil_r.
      destruct (@getFactCheckCorrection_calls _ _ _ _ Hg) as [-> | ->]; [left | right];
        reflexivity.
    + left.
      assert (Hs : submit env w
                   = (Normal tt, settle env (extend (sending env w) []) (botMessage text None))).
      { rewrite H. unfold extend. now rewrite app_nil_r. }
      destruct (@turnEffects_settle _ _ _ Hs) as [now2 ->]. reflexivity.
Qed.

(** X8. When the request of an accepted turn is rejected (network
    failure), or answered with a success status and a body that does not
    parse, the turn logs that error, appends the apology flagged as an
    error with no correction, calls no further backend and clears the
    flag. *)
Theorem transport_failure_turn (w : World) (e : JsError) :
  accepted w ->
  (turnReply env w = FetchRejected e
   \/ exists r, turnReply env w = FetchResolved r /\ ok r = true /\ body r = NotJson e) ->
  exists w' id,
    submit env w = (Normal tt, w')
    /\ messages (ui w')
       = messages (ui w)
         ++ [userMessage env w;
             {| Msg.id := id; Msg.text := apology; Msg.sender := bot;
                Msg.correction := None; Msg.isError := true |}]
    /\ backendCalls (turnEffects env w) = [FetchCall (turnRequest w)]
    /\ In (EConsoleError "Failed to fetch from LLM endpoint:" e) (turnEffects env w)
    /\ isLoading (ui w') = false.
Proof.
  intros Hacc Hfail. pose proof (turn_anatomy env Hacc) as H.
  assert (Hgen : generation (turnReply env w) = inl e).
  { destruct Hfail as [-> | (r & -> & Hok & Hbody)]; [reflexivity|].
    unfold generation. now rewrite Hok, Hbody. }
  rewrite Hgen in H.
  destruct (@turnEffects_settle _ _ _ H) as [now2 Ht].
  do 2 eexists. split; [exact H|]. rewrite Ht.
  unfold settle, extend, sending. cbn [ui trace messages isLoading].
  rewrite <- !app_assoc. cbn [app].
  split; [reflexivity|]. split; [reflexivity|]. split; [|reflexivity].
  cbn [In]. tauto.
Qed.

(** X9. When the request of an accepted turn is answered with a success
    status and a non-empty [response], the bot message carries that
    response unchanged and is not flagged as an error, whatever the
    verification toggle and the verifier say. *)
Theorem reply_text_is_verbatim (w : World) (r : HttpResponse) (data : Data.t)
    (text : string) :
  accepted w ->
  turnReply env w = FetchResolved r ->
  ok r = true ->
  body r = Json data ->
  Data.response data = Some text ->
  text <> ""%string ->
  exists w' id correction,
    submit env w = (Normal tt, w')
    /\ messages (ui w')
       = messages (ui w)
         ++ [userMessage env w;
             {| Msg.id := id; Msg.text := text; Msg.sender := bot;
                Msg.correction := correction; Msg.isError := false |}].
Proof.
  intros Hacc Hreply Hok Hbody Hr Hne. pose proof (turn_anatomy env Hacc) as H.
  assert (Hgen : generation (turnReply env w) = inr text).
  { rewrite Hreply. unfold generation. rewrite Hok, Hbody, Hr.
    destruct text; [now elim Hne | reflexivity]. }
  rewrite Hgen in H.
  destruct (isFactCheckEnabled (ui w)).
  - destruct H as (c & d & _ & _ & H). do 3 eexists. split; [exact H|].
    unfold settle, extend, sending, botMessage. cbn [ui messages].
    rewrite <- !app_assoc. reflexivity.
  - do 3 eexists. split; [exact H|].
    unfold settle, extend, sending, botMessage. cbn [ui messages].
    rewrite <- !app_assoc. reflexivity.
Qed.

(** X10. When the clock does not fall below the turn's first reading
    while the turn runs, the id of the reply is greater than the id of
    the question, even when both readings are the same. *)
Theorem reply_id_exceeds_question_id (w : World) :
  accepted w ->
  (forall later, arrival env w <= clock env (sendingTrace env w ++ later)) ->
  exists question reply,
    messages (ui (snd (submit env w))) = messages (ui w) ++ [question; reply]
    /\ Msg.sender question = user
    /\ Msg.sender reply = bot
    /\ Msg.id question < Msg.id reply.
Proof.
  intros Hacc Hclock.
  destruct (turn_settles env Hacc) as (d & message & Hs & Hid & Hbot).
  rewrite Hs. cbn [snd]. do 2 eexists. split.
  - unfold settle, extend, sending. cbn [ui messages].
    rewrite <- !app_assoc. reflexivity.
  - split; [reflexivity|]. split; [apply Hbot|]. rewrite Hid.
    cbn [userMessage Msg.id trace]. rewrite <- app_assoc.
    match goal with
    | |- _ < clock env (_ ++ ?l) + 1 => pose proof (Hclock l)
    end. lia.
Qed.

(** X11. With verification on, when the classification call is rejected or
    answers without text, the reply is appended with the opinion notice
    as its correction and the verifier is not called. *)
Theorem classifier_failure_reads_as_opinion (w : World) (text : string) :
  accepted w ->
  isFactCheckEnabled (ui w) = true ->
  generation (turnReply env w) = inr text ->
  (let reply := genai_reply env (trace (sending env w)) (classifyRequest text) in
   (exists e, reply = GenRejected e)
   \/ (exists r, reply = GenResolved r /\ Resp.text r = None)) ->
  exists w' id,
    submit env w = (Normal tt, w')
    /\ messages (ui w')
       = messages (ui w)
         ++ [userMessage env w;
             {| Msg.id := id; Msg.text := text; Msg.sender := bot;
                Msg.correction := Some opinionNotice; Msg.isError := false |}]
    /\ backendCalls (turnEffects env w)
       = [FetchCall (turnRequest w); GenerateCall (classifyRequest text)].
Proof.
  intros Hacc Hfc Hgen Hfail. cbv zeta in Hfail.
  pose proof (turn_anatomy env Hacc) as H. rewrite Hgen, Hfc in H.
  destruct H as (c & d & Hg & _ & Hs).
  pose proof (classifyStatementType_run env text (sending env w)) as Hc. cbv zeta in Hc.
  assert (Hcls : exists dc,
             classifyStatementType env text (sending env w)
               = (Normal OPINION, extend (sending env w) dc)
             /\ backendCalls dc = [GenerateCall (classifyRequest text)]).
  { destruct Hfail as [[e He] | (r & He & Hr)]; rewrite He in Hc; [|rewrite Hr in Hc];
      eexists; (split; [exact Hc | reflexivity]). }
  destruct Hcls as (dc & Hcls & Hdc).
  rewrite (getFactCheckCorrection_opinion env text (sending env w) Hcls) in Hg.
  rewrite extend_extend in Hg. injection Hg as <- Hd. apply app_inv_head in Hd. subst d.
  destruct (@turnEffects_settle _ _ _ Hs) as [now2 Ht].
  do 2 eexists. split; [exact Hs|]. split.
  - unfold settle, extend, sending, botMessage. cbn [ui messages].
    rewrite <- !app_assoc. reflexivity.
  - rewrite Ht. cbn [app backendCalls]. rewrite !backendCalls_app, Hdc. reflexivity.
Qed.

(** X12. Where trimming the empty string gives the empty string, an
    accepted submit leaves the input empty, and a second submit right
    after it changes nothing but the event. *)
Theorem resubmit_without_typing_is_rejected (w : World) :
  trim "" = ""%string ->
  accepted w ->
  let after := snd (submit env w) in
  input (ui after) = ""%string
  /\ submit env after
     = (Normal tt, {| ui := ui after; trace := trace after ++ [EPreventDefault] |}).
Proof.
  intros Htrim Hacc. cbv zeta.
  destruct (turn_settles env Hacc) as (d & message & Hs & _).
  rewrite Hs. cbn [snd]. split; [reflexivity|].
  apply guard_rejects. cbn [settle extend sending ui input]. now rewrite Htrim.
Qed.

(** X13. With the context toggle on, the request of the turn after an
    accepted one quotes that turn's question and reply as the last two
    texts of its context, after at most two earlier texts. *)
Theorem next_turn_quotes_last_exchange (w : World) (value : string) :
  accepted w ->
  isContextEnabled (ui w) = true ->
  exists earlier reply,
    (length earlier <= 2)%nat
    /\ messages (ui (run env [Submit] w)) = messages (ui w) ++ [userMessage env w; reply]
    /\ prompt (turnRequest (run env [Submit; TypeInput value] w))
       = contextTemplate
           (map Msg.text earlier ++ [Msg.text (userMessage env w); Msg.text reply])
           (processedInput value).
Proof.
  intros Hacc Hctx.
  destruct (turn_settles env Hacc) as (d & message & Hs & _).
  cbn [run dispatch]. rewrite Hs. cbn [snd]. unfold settle. cbv zeta.
  set (reply := message _).
  destruct (slice_after_exchange (messages (ui w)) (userMessage env w) reply)
    as (earlier & Hslice & Hlen).
  exists earlier, reply. split; [exact Hlen|]. split.
  - unfold extend, sending. cbn [ui messages].
    rewrite <- !app_assoc. reflexivity.
  - unfold turnRequest, setInput, modifyUi, extend, sending.
    cbn [snd ui messages input isContextEnabled generationRequest prompt].
    rewrite Hctx. unfold promptWithContext.
    rewrite <- !app_assoc. cbn [app]. rewrite Hslice, map_app. reflexivity.
Qed.

End Turns.

Section Extraction.

Context {JS : JsString}.

(** X14. Without direct text the extracted text is never empty, and it is
    one of three texts: with function calls, the trimmed joined fragments
    of the first candidate when there are fragments and the result is not
    empty, and the technical-limitations fallback otherwise; without
    function calls, the unable-to-verify fallback. *)
Theorem extraction_never_empty_without_direct_text (r : Resp.t) :
  noDirectText r ->
  let fs := fragments (firstCandidateParts r) in
  let joined := trim (Js.join " " fs) in
  groundedResponse r <> ""%string
  /\ ((hasFunctionCalls r = true /\ fs <> [] /\ joined <> ""%string
       /\ groundedResponse r = joined)
      \/ (hasFunctionCalls r = true /\ (fs = [] \/ joined = ""%string)
          /\ groundedResponse r = technicalFallback)
      \/ (hasFunctionCalls r = false /\ groundedResponse r = unverifiedFallback)).
Proof.
  intros Hno. cbv zeta. rewrite (groundedResponse_no_text Hno).
  destruct (hasFunctionCalls r).
  - rewrite candidateText_fragments.
    destruct (fragments (firstCandidateParts r)) as [|f fs] eqn:Efs.
    + split; [discriminate|]. right. left. repeat split. now left.
    + destruct (Js.truthy (trim (Js.join " " (f :: fs)))) eqn:Ej.
      * apply JsFacts.truthy_true in Ej. split; [exact Ej|]. left.
        repeat split; [discriminate | exact Ej].
      * apply JsFacts.truthy_false in Ej. split; [discriminate|]. right. left.
        repeat split. now right.
  - split; [discriminate|]. right. right. split; reflexivity.
Qed.

End Extraction.

(* ===================================================================== *)
(** ** Message ids *)
(* ===================================================================== *)

Lemma clockReadings_app (a b : list Effect) :
  clockReadings (a ++ b) = clockReadings a ++ clockReadings b.
Proof.
  induction a as [|e a IH]; [reflexivity|].
  destruct e; cbn [app clockReadings]; rewrite IH; reflexivity.
Qed.

Lemma clockReadings_verifier (d : list Effect) :
  Forall verifierEffect d -> clockReadings d = [].
Proof.
  induction 1 as [|e d He _ IH]; [reflexivity|].
  destruct e; cbn in He; try contradiction; exact IH.
Qed.

(** Timed readings are those whose ids increase. *)
Lemma timed_Sorted (turns : list (Z * Z)) (floor : Z) :
  timed floor (readingsOf turns) <-> Sorted Z.lt (floor :: idsOf turns).
Proof.
  revert floor. induction turns as [|[first second] turns IH]; intros floor.
  - cbn. split; [repeat constructor | trivial].
  - change (readingsOf ((first, second) :: turns))
      with (first :: second :: readingsOf turns).
    change (idsOf ((first, second) :: turns))
      with (first :: second + 1 :: idsOf turns).
    cbn [timed]. rewrite IH. split.
    + intros (H1 & H2 & H3).
      apply Sorted_cons; [apply Sorted_cons; [exact H3 | constructor; lia] |].
      constructor. exact H1.
    + intros H. inversion H as [|? ? H1 H2]; subst.
      inversion H1 as [|? ? H3 H4]; subst.
      inversion H2; subst. inversion H4; subst. repeat split; [assumption | lia | assumption].
Qed.

Lemma StronglySorted_lt_NoDup (l : list Z) : StronglySorted Z.lt l -> NoDup l.
Proof.
  induction 1 as [|a l _ IH Ha]; constructor; [|assumption].
  intros Hin. rewrite Forall_forall in Ha. specialize (Ha a Hin). lia.
Qed.

Section Identifiers.

Context {JS : JsString}.
Variable env : Env.

(** An accepted submit ends in [settle], and the effects between the
    request and the end are those of the classifier, the verifier and the
    console. *)
Lemma turn_settles_quietly (w : World) :
  accepted w ->
  exists d message,
    submit env w = (Normal tt, settle env (extend (sending env w) d) message)
    /\ Forall verifierEffect d
    /\ (forall i, Msg.id (message i) = i).
Proof.
  intros Hacc. pose proof (turn_anatomy env Hacc) as H.
  destruct (generation (turnReply env w)) as [e|text].
  - do 2 eexists. split; [exact H|]. split; [repeat constructor | reflexivity].
  - destruct (isFactCheckEnabled (ui w)).
    + destruct H as (c & d & _ & Hd & H).
      do 2 eexists. split; [exact H|]. split; [exact Hd | reflexivity].
    + exists [], (botMessage text None). split; [|split; [constructor | reflexivity]].
      rewrite H. unfold extend. now rewrite app_nil_r.
Qed.

(** The ids of the conversation are read off the clock: 1 for the
    greeting, then for each turn its first reading and its second reading
    plus one. *)
Lemma ids_follow_readings (actions : list Action) :
  exists turns,
    clockReadings (trace (run env actions initialWorld)) = readingsOf turns
    /\ map Msg.id (messages (ui (run env actions initialWorld))) = 1 :: idsOf turns.
Proof.
  apply (run_invariant env
           (fun w => exists turns,
              clockReadings (trace w) = readingsOf turns
              /\ map Msg.id (messages (ui w)) = 1 :: idsOf turns)).
  - intros a w (turns & Hr & Hi).
    destruct (dispatch_cases env a w) as [-> | (Hm & _ & Ht)].
    + cbn [dispatch].
      destruct (submit_cases env w) as [[_ Hs] | (_ & Hacc & _)].
      * rewrite Hs. cbn [snd extend ui trace]. exists turns.
        rewrite clockReadings_app, app_nil_r. now split.
      * destruct (turn_settles_quietly Hacc) as (d & message & Hs & Hd & Hid).
        rewrite Hs. cbn [snd].
        exists (turns ++ [(arrival env w, clock env (trace (extend (sending env w) d)))]).
        unfold readingsOf, idsOf. rewrite !flat_map_app. cbn [flat_map fst snd app].
        fold (readingsOf turns). fold (idsOf turns). split.
        -- unfold settle, extend, sending, sendingTrace. cbn [ui trace].
           rewrite !clockReadings_app, (clockReadings_verifier Hd), Hr.
           cbn [clockReadings]. rewrite <- !app_assoc. reflexivity.
        -- unfold settle, extend, sending. cbn [ui trace messages].
           rewrite !map_app, Hi. cbn [map userMessage Msg.id]. rewrite Hid.
           rewrite <- !app_assoc. reflexivity.
    + exists turns. rewrite Hm, Ht. now split.
  - exists []. split; reflexivity.
Qed.

(** C9, as amended.  Along every sequence of events from the first render,
    the ids of the conversation increase strictly in creation order
    exactly when the readings of the clock are timed: the first reading of
    each turn is greater than every id given out before it (1 for the
    greeting, the reading for a user message, the reading plus one for a
    bot message), and the second reading of the turn is not below the
    first.  When they are timed, no two messages share an id. *)
Theorem ids_increase_when_turns_are_timed (actions : list Action) :
  let w := run env actions initialWorld in
  let ids := map Msg.id (messages (ui w)) in
  (timed 1 (clockReadings (trace w)) <-> StronglySorted Z.lt ids)
  /\ (timed 1 (clockReadings (trace w)) -> NoDup ids).
Proof.
  cbv zeta. destruct (ids_follow_readings actions) as (turns & -> & ->).
  assert (H : timed 1 (readingsOf turns) <-> StronglySorted Z.lt (1 :: idsOf turns)).
  { rewrite timed_Sorted. split.
    - apply Sorted_StronglySorted. intros x y z. apply Z.lt_trans.
    - apply StronglySorted_Sorted. }
  split; [exact H|]. intros Ht. apply StronglySorted_lt_NoDup, H, Ht.
Qed.

End Identifiers.

(* ===================================================================== *)
(** ** Concrete runs *)
(* ===================================================================== *)

Import AsciiText Scenario.

(** *** The specification's examples, run *)

Example normalization_examples :
  processedInput "hello" = "hello?"%string
  /\ processedInput "hello?" = "hello?"%string
  /\ processedInput "hello? " = "hello?"%string.
Proof. repeat split. Qed.

Example six_messages_window :
  let m (n : Z) (t : string) :=
    {| Msg.id := n; Msg.text := t; Msg.sender := user;
       Msg.correction := None; Msg.isError := false |} in
  promptWithContext true
    [m 1 "one"; m 2 "two"; m 3 "three"; m 4 "four"; m 5 "five"; m 6 "six"] "seven?"
  = ("Previous conversation:" ++ Js.nl
     ++ "three" ++ Js.nl ++ Js.nl ++ "four" ++ Js.nl ++ Js.nl
     ++ "five" ++ Js.nl ++ Js.nl ++ "six"
     ++ Js.nl ++ Js.nl ++ "Current question: seven?")%string.
Proof. reflexivity. Qed.

Example verifier_mapping_examples :
  let verify (verdict : string) :=
    fst (getFactCheckCorrection
           {| clock := steadyClock;
              endpoint_reply := fun _ _ => http 200 (Some skyText);
              genai_reply := gemini (saying "FACT") (saying verdict) |}
           skyText asked) in
  verify "CORRECT" = Normal None
  /\ verify "Correct" = Normal None
  /\ verify "The statement is correct because the sky scatters light." = Normal None
  /\ verify "Actually, the capital is X, not Y."
     = Normal (Some "Actually, the capital is X, not Y."%string).
Proof. repeat split. Qed.

Example end_to_end_success :
  messages (ui (run skyEnv [Submit] asked))
  = [greeting;
     {| Msg.id := epoch + 250; Msg.text := "the sky is green?"; Msg.sender := user;
        Msg.correction := None; Msg.isError := false |};
     {| Msg.id := epoch + 1501; Msg.text := skyText; Msg.sender := bot;
        Msg.correction := Some skyCorrection; Msg.isError := false |}].
Proof. reflexivity. Qed.

Example end_to_end_opinion_skip :
  let opinionEnv :=
    {| clock := steadyClock;
       endpoint_reply := fun _ _ => http 200 (Some "I think blue is the best color"%string);
       genai_reply := gemini (saying "OPINION") (saying "CORRECT") |} in
  map Msg.correction (messages (ui (run opinionEnv [Submit] asked)))
  = [None; None; Some opinionNotice]
  /\ Forall (fun e => match e with
                      | EGenerateContent req _ => config req = None
                      | _ => True
                      end)
            (turnEffects opinionEnv asked).
Proof. split; [reflexivity | repeat constructor]. Qed.

Example end_to_end_generation_failure :
  let after := run downEnv [Submit] asked in
  messages (ui after)
  = [greeting;
     {| Msg.id := epoch + 250; Msg.text := "the sky is green?"; Msg.sender := user;
        Msg.correction := None; Msg.isError := false |};
     {| Msg.id := epoch + 1251; Msg.text := apology; Msg.sender := bot;
        Msg.correction := None; Msg.isError := true |}]
  /\ isLoading (ui after) = false.
Proof. split; reflexivity. Qed.

Example end_to_end_verifier_down :
  map Msg.correction (messages (ui (run unverifiedEnv [Submit] asked)))
  = [None; None; Some unavailableNotice].
Proof. reflexivity. Qed.

(** Later candidates are not read: the text of a second candidate does not
    reach the correction. *)
Example second_candidate_ignored :
  groundedResponse
    {| Resp.text := None;
       Resp.functionCalls := Resp.functionCalls toolResponse;
       Resp.candidates :=
         Some [ {| content := Some {| parts := Some [Part.mk None] |} |};
                {| content := Some {| parts := Some [Part.mk (Some "It is blue."%string)] |} |} ] |}
  = technicalFallback.
Proof. reflexivity. Qed.

(** Fragments that trim to nothing count as no text at all. *)
Example blank_fragments_fall_back :
  groundedResponse
    {| Resp.text := None;
       Resp.functionCalls := Resp.functionCalls toolResponse;
       Resp.candidates :=
         Some [ {| content := Some {| parts := Some [Part.mk (Some Js.nl)] |} |} ] |}
  = technicalFallback.
Proof. reflexivity. Qed.

(** *** The theorems at concrete inputs *)

Lemma accepted_asked : accepted asked.
Proof. split; [discriminate | reflexivity]. Defined.

Lemma accepted_askedUnchecked : accepted askedUnchecked.
Proof. split; [discriminate | reflexivity]. Defined.

Lemma submit_always_settles_witness :
  accepted asked
  /\ exists w' during,
       submit unverifiedEnv asked = (Normal tt, w')
       /\ trace w' = trace asked
                     ++ [EPreventDefault; ENow (arrival unverifiedEnv asked);
                         ESetIsLoading true]
                     ++ during ++ [ESetIsLoading false]
       /\ Forall notSetIsLoading during
       /\ isLoading (ui w') = false.
Proof.
  split; [exact accepted_asked |].
  exact (submit_always_settles unverifiedEnv accepted_asked).
Defined.

Lemma submit_rejected_no_effect_witness :
  isLoading (ui busy) = true
  /\ submit skyEnv busy
     = (Normal tt, {| ui := ui busy; trace := trace busy ++ [EPreventDefault] |}).
Proof.
  split; [reflexivity |].
  apply (submit_rejected_no_effect skyEnv busy). left. reflexivity.
Defined.

Lemma verifier_outcome_witness :
  classifyStatementType skyEnv skyText (sending skyEnv asked)
    = (Normal FACT, snd (classifyStatementType skyEnv skyText (sending skyEnv asked)))
  /\ fst (getFactCheckCorrection skyEnv skyText (sending skyEnv asked))
     = Normal (Some skyCorrection).
Proof.
  assert (Hc : classifyStatementType skyEnv skyText (sending skyEnv asked)
               = (Normal FACT,
                  snd (classifyStatementType skyEnv skyText (sending skyEnv asked))))
    by reflexivity.
  split; [exact Hc |].
  refine (proj2 (verifier_outcome skyEnv skyText (sending skyEnv asked)
                   (r := {| Resp.text := Some skyCorrection;
                            Resp.functionCalls := None;
                            Resp.candidates := None |})
                   Hc eq_refl) _).
  intros H. apply explicitlyCorrect_spec in H. discriminate H.
Defined.

Lemma extraction_policy_witness :
  let toolEnv :=
    {| clock := steadyClock;
       endpoint_reply := fun _ _ => http 200 (Some skyText);
       genai_reply := gemini (saying "FACT") (GenResolved toolResponse) |} in
  classifyStatementType toolEnv skyText (sending toolEnv asked)
    = (Normal FACT, snd (classifyStatementType toolEnv skyText (sending toolEnv asked)))
  /\ groundedResponse toolResponse = "The sky is blue, not green."%string
  /\ fst (getFactCheckCorrection toolEnv skyText (sending toolEnv asked))
     = Normal (Some "The sky is blue, not green."%string).
Proof.
  intros toolEnv.
  assert (Hc : classifyStatementType toolEnv skyText (sending toolEnv asked)
               = (Normal FACT,
                  snd (classifyStatementType toolEnv skyText (sending toolEnv asked))))
    by reflexivity.
  split; [exact Hc |].
  destruct (proj1 (extraction_policy toolEnv skyText (sending toolEnv asked) Hc)
              toolResponse eq_refl) as (Hrun & _ & Htool & _).
  split.
  - refine (proj2 (proj2 (Htool (or_introl eq_refl) _)) _ _).
    + now eexists _, _.
    + discriminate.
    + discriminate.
  - rewrite Hrun. reflexivity.
Defined.

Lemma classify_policy_witness :
  fst (classifyStatementType skyEnv skyText asked) = Normal FACT.
Proof.
  refine (proj2 (proj1 (proj1 (classify_policy skyEnv skyText asked)
                          {| Resp.text := Some "FACT"%string;
                             Resp.functionCalls := None;
                             Resp.candidates := None |}
                          "FACT"%string eq_refl eq_refl)) _).
  apply JsFacts.includes_Contains. reflexivity.
Defined.

Lemma built_prompt_witness :
  accepted asked
  /\ exists w' reply rest sent,
       submit skyEnv asked = (Normal tt, w')
       /\ trace w' = trace asked
                     ++ [EPreventDefault; ENow (arrival skyEnv asked);
                         ESetIsLoading true; EFetch (generationRequest sent) reply]
                     ++ rest
       /\ (isContextEnabled (ui asked) = true ->
           exists older window,
             messages (ui asked) = older ++ window
             /\ length window = Nat.min 4 (length (messages (ui asked)))
             /\ sent = ("Previous conversation:" ++ Js.nl
                        ++ Js.join (Js.nl ++ Js.nl) (map Msg.text window)
                        ++ Js.nl ++ Js.nl ++ "Current question: "
                        ++ processedInput (input (ui asked)))%string)
       /\ (isContextEnabled (ui asked) = false
           -> sent = processedInput (input (ui asked))).
Proof.
  split; [exact accepted_asked |].
  exact (built_prompt skyEnv accepted_asked).
Defined.

Lemma generation_failure_turn_witness :
  accepted asked
  /\ turnReply downEnv asked = http 500 None
  /\ exists w' id,
       submit downEnv asked = (Normal tt, w')
       /\ messages (ui w')
          = messages (ui asked)
            ++ [userMessage downEnv asked;
                {| Msg.id := id; Msg.text := apology; Msg.sender := bot;
                   Msg.correction := None; Msg.isError := true |}]
       /\ Forall notGenerateContent (turnEffects downEnv asked)
       /\ isLoading (ui w') = false.
Proof.
  split; [exact accepted_asked |]. split; [reflexivity |].
  refine (generation_failure_turn downEnv accepted_asked
            (r := {| status := 500; body := Json (Data.mk None) |}) eq_refl _).
  left. reflexivity.
Defined.

Lemma fact_check_disabled_turn_witness :
  accepted askedUnchecked
  /\ isFactCheckEnabled (ui askedUnchecked) = false
  /\ turnReply skyEnv askedUnchecked = http 200 (Some skyText)
  /\ exists w' id,
       submit skyEnv askedUnchecked = (Normal tt, w')
       /\ messages (ui w')
          = messages (ui askedUnchecked)
            ++ [userMessage skyEnv askedUnchecked;
                {| Msg.id := id; Msg.text := skyText; Msg.sender := bot;
                   Msg.correction := None; Msg.isError := false |}]
       /\ Forall notGenerateContent (turnEffects skyEnv askedUnchecked).
Proof.
  split; [exact accepted_askedUnchecked |].
  split; [reflexivity |]. split; [reflexivity |].
  refine (fact_check_disabled_turn skyEnv accepted_askedUnchecked eq_refl
            (r := {| status := 200; body := Json (Data.mk (Some skyText)) |})
            (data := Data.mk (Some skyText)) (text := skyText)
            eq_refl eq_refl eq_refl eq_refl _).
  discriminate.
Defined.

Lemma context_is_start_of_turn_witness :
  accepted asked
  /\ isContextEnabled (ui asked) = true
  /\ exists w' reply rest older window reply_message,
       submit skyEnv asked = (Normal tt, w')
       /\ messages (ui asked) = older ++ window
       /\ length window = Nat.min 4 (length (messages (ui asked)))
       /\ trace w' = trace asked
                     ++ [EPreventDefault; ENow (arrival skyEnv asked);
                         ESetIsLoading true;
                         EFetch (generationRequest
                                   (contextTemplate (map Msg.text window)
                                      (processedInput (input (ui asked)))))
                                reply]
                     ++ rest
       /\ messages (ui w') = older ++ window ++ [userMessage skyEnv asked; reply_message]
       /\ (messages (ui asked) = [greeting] -> window = [greeting]).
Proof.
  split; [exact accepted_asked |]. split; [reflexivity |].
  exact (context_is_start_of_turn skyEnv accepted_asked eq_refl).
Defined.

Lemma ids_increase_when_turns_are_timed_witness :
  timed 1 (clockReadings (trace (run skyEnv twoTurns initialWorld)))
  /\ StronglySorted Z.lt (map Msg.id (messages (ui (run skyEnv twoTurns initialWorld))))
  /\ NoDup (map Msg.id (messages (ui (run skyEnv twoTurns initialWorld)))).
Proof.
  assert (H : timed 1 (clockReadings (trace (run skyEnv twoTurns initialWorld)))).
  { vm_compute. repeat split; discriminate. }
  split; [exact H |]. split.
  - exact (proj1 (proj1 (ids_increase_when_turns_are_timed skyEnv twoTurns)) H).
  - exact (proj2 (ids_increase_when_turns_are_timed skyEnv twoTurns) H).
Defined.

(** Readings that stand still within each turn are timed, and the ids
    are consecutive. *)
Example equal_readings_within_a_turn :
  clockReadings (trace (run pairedEnv twoTurns initialWorld)) = [2; 2; 4; 4]
  /\ map Msg.id (messages (ui (run pairedEnv twoTurns initialWorld))) = [1; 2; 3; 4; 5].
Proof. split; reflexivity. Qed.

(** The readings of the colliding run are not timed: the second turn's
    first reading is the id of the first reply. *)
Example colliding_readings :
  clockReadings (trace (run racingEnv twoTurns initialWorld))
  = [epoch; epoch + 300; epoch + 301; epoch + 600]
  /\ ~ timed 1 (clockReadings (trace (run racingEnv twoTurns initialWorld))).
Proof.
  split; [reflexivity|]. intros H. vm_compute in H.
  destruct H as (_ & _ & H & _). discriminate H.
Qed.

(** *** Where the code departs from the specification *)

(** C4, as stated, fails.  On an answer with function calls whose text
    sits in the parts of the candidate and ends with a line feed, the code
    extracts the joined fragments without the line feed, where joining
    the fragments with spaces keeps it. *)
Lemma stated_extraction_differs :
  groundedResponse toolResponse = "The sky is blue, not green."%string
  /\ statedExtraction toolResponse = ("The sky is blue, not green." ++ Js.nl)%string
  /\ groundedResponse toolResponse <> statedExtraction toolResponse.
Proof.
  repeat split. discriminate.
Qed.

(** C9, as stated, fails.  From the first render, two turns in which the
    second submit reads the clock one millisecond after the first turn
    read it for its bot message: that bot message and the second user
    message get the same id, so the ids of the conversation are neither
    unique nor strictly increasing. *)
Lemma ids_collide_across_turns :
  let conversation := messages (ui (run racingEnv twoTurns initialWorld)) in
  map Msg.id conversation = [1; epoch; epoch + 301; epoch + 301; epoch + 601]
  /\ map Msg.sender conversation = [bot; user; bot; user; bot]
  /\ ~ NoDup (map Msg.id conversation).
Proof.
  cbv zeta. split; [reflexivity |]. split; [reflexivity |].
  intros H. vm_compute in H.
  inversion H as [|? ? _ H1]; subst. inversion H1 as [|? ? _ H2]; subst.
  inversion H2 as [|? ? Hin _]; subst. apply Hin. left. reflexivity.
Qed.

(* ===================================================================== *)
(** ** The built-ins on ASCII text, and more runs *)
(* ===================================================================== *)

Module AsciiFacts.
Import AsciiText.
Local Open Scope string_scope.

Lemma upper_upper (c : ascii) : upper (upper c) = upper c.
Proof. destruct c as [[] [] [] [] [] [] [] []]; reflexivity. Qed.

Lemma lower_upper (c : ascii) : lower (upper c) = lower c.
Proof. destruct c as [[] [] [] [] [] [] [] []]; reflexivity. Qed.

Lemma upper_lower (c : ascii) : upper (lower c) = upper c.
Proof. destruct c as [[] [] [] [] [] [] [] []]; reflexivity. Qed.

Lemma lower_lower (c : ascii) : lower (lower c) = lower c.
Proof. destruct c as [[] [] [] [] [] [] [] []]; reflexivity. Qed.

Lemma mapChars_mapChars (f g h : ascii -> ascii) (s : string) :
  (forall c, f (g c) = h c) -> mapChars f (mapChars g s) = mapChars h s.
Proof.
  intros H. induction s as [|c s IH]; cbn; [reflexivity | now rewrite H, IH].
Qed.

Lemma trimStart_idempotent (s : string) : trimStart (trimStart s) = trimStart s.
Proof.
  induction s as [|c s IH]; [reflexivity|]. cbn [trimStart].
  destruct (isWhiteSpace c) eqn:E; [exact IH|]. cbn [trimStart]. now rewrite E.
Qed.

Lemma trimStart_head (s r : string) (c : ascii) :
  trimStart s = String c r -> isWhiteSpace c = false.
Proof.
  induction s as [|d s IH]; [discriminate|]. cbn [trimStart].
  destruct (isWhiteSpace d) eqn:E; [exact IH|]. intros H. injection H as <- _. exact E.
Qed.

(** The tail of a string without trailing white space has none either. *)
Lemma trimEnd_tail (c : ascii) (s : string) :
  trimEnd (String c s) = String c s -> trimEnd s = s.
Proof.
  cbn [trimEnd]. destruct (trimEnd s) as [|d r] eqn:E.
  - destruct (isWhiteSpace c); [discriminate|]. intros H. now injection H as <-.
  - intros H. now injection H as <-.
Qed.

Lemma trimEnd_trimStart (s : string) :
  trimEnd s = s -> trimEnd (trimStart s) = trimStart s.
Proof.
  induction s as [|c s IH]; [reflexivity|]. intros H. cbn [trimStart].
  destruct (isWhiteSpace c); [|exact H]. apply IH. exact (trimEnd_tail H).
Qed.

Lemma trimEnd_idempotent (s : string) : trimEnd (trimEnd s) = trimEnd s.
Proof.
  induction s as [|c s IH]; [reflexivity|]. cbn [trimEnd].
  destruct (trimEnd s) as [|d r] eqn:E.
  - destruct (isWhiteSpace c) eqn:Ec; [reflexivity|]. cbn [trimEnd]. now rewrite Ec.
  - cbn [trimEnd] in *. now rewrite IH.
Qed.

Lemma trim_idempotent (s : string) : trim (trim s) = trim s.
Proof.
  cbn [trim engine].
  rewrite (trimEnd_trimStart (trimEnd_idempotent s)). apply trimStart_idempotent.
Qed.

Lemma trimEnd_question (s : string) : trimEnd (s ++ "?") = s ++ "?".
Proof.
  induction s as [|c s IH]; [reflexivity|].
  cbn [append trimEnd]. rewrite IH. destruct s; reflexivity.
Qed.

Lemma trim_question (s : string) : trim (trim s ++ "?") = trim s ++ "?".
Proof.
  cbn [trim engine]. rewrite trimEnd_question.
  destruct (trimStart (trimEnd s)) as [|c r] eqn:E; [reflexivity|].
  cbn [append trimStart]. now rewrite (trimStart_head _ E).
Qed.

(** X15. On ASCII text, processing an input that was already processed
    changes nothing: no second question mark is appended. *)
Theorem normalization_is_idempotent (i : string) :
  processedInput (processedInput i) = processedInput i.
Proof.
  unfold processedInput at 2 3.
  destruct (Js.endsWith (trim i) "?") eqn:E; unfold processedInput.
  - now rewrite trim_idempotent, E.
  - rewrite trim_question.
    assert (H : Js.endsWith (trim i ++ "?") "?" = true)
      by (apply JsFacts.endsWith_spec; now exists (trim i)).
    now rewrite H.
Qed.

(** X16. On ASCII text the test for an explicit confirmation gives the
    same result on a text, on its upper-case form and on its lower-case
    form. *)
Theorem verdict_ignores_letter_case (g : string) :
  explicitlyCorrect (toUpperCase g) = explicitlyCorrect g
  /\ explicitlyCorrect (toLowerCase g) = explicitlyCorrect g.
Proof.
  unfold explicitlyCorrect. cbn [toUpperCase toLowerCase engine].
  rewrite (mapChars_mapChars _ _ _ g upper_upper), (mapChars_mapChars _ _ _ g lower_upper),
    (mapChars_mapChars _ _ _ g upper_lower), (mapChars_mapChars _ _ _ g lower_lower).
  split; reflexivity.
Qed.

(** X17. On ASCII text, when the verification answers with a direct text
    that is not empty but trims to nothing, the verifier returns the
    empty string as the correction, and the row of a bot message with that
    correction shows no correction box. *)
Theorem blank_verdict_shows_no_correction (env : Env) (statement : string)
    (w w1 : World) (r : Resp.t) (t : string) (id : Z) :
  classifyStatementType env statement w = (Normal FACT, w1) ->
  genai_reply env (trace w1) (factCheckRequest statement) = GenResolved r ->
  Resp.text r = Some t ->
  t <> "" ->
  trim t = "" ->
  fst (getFactCheckCorrection env statement w) = Normal (Some "")
  /\ View.correctionBox (renderMessage (botMessage statement (Some "") id)) = None.
Proof.
  intros Hc Hr Ht Hne Hblank. split; [|reflexivity].
  pose proof (getFactCheckCorrection_fact env statement w Hc) as H. cbv zeta in H.
  rewrite H, Hr. cbn [fst].
  rewrite (groundedResponse_text r Ht Hne), Hblank. reflexivity.
Qed.

End AsciiFacts.

Import MoreScenarios.

Lemma play_button_only_on_greeting_witness :
  (forall tr, 0 < clock skyEnv tr)
  /\ exists first others,
       View.rows (render (ui (run skyEnv twoTurns initialWorld))) = first :: others
       /\ View.playButton first = true
       /\ Forall (fun row => View.playButton row = false) others.
Proof.
  assert (H : forall tr, 0 < clock skyEnv tr)
    by (intros tr; cbn [clock skyEnv]; unfold steadyClock, epoch; lia).
  split; [exact H |].
  exact (play_button_only_on_greeting skyEnv H twoTurns).
Defined.

Lemma turn_backend_calls_witness :
  accepted asked
  /\ (backendCalls (turnEffects skyEnv asked) = [FetchCall (turnRequest asked)]
      \/ exists text,
           generation (turnReply skyEnv asked) = inr text
           /\ isFactCheckEnabled (ui asked) = true
           /\ (backendCalls (turnEffects skyEnv asked)
               = [FetchCall (turnRequest asked); GenerateCall (classifyRequest text)]
               \/ backendCalls (turnEffects skyEnv asked)
                  = [FetchCall (turnRequest asked); GenerateCall (classifyRequest text);
                     GenerateCall (factCheckRequest text)])).
Proof.
  split; [exact accepted_asked |].
  exact (turn_backend_calls skyEnv accepted_asked).
Defined.

Lemma transport_failure_turn_witness :
  accepted asked
  /\ turnReply offlineEnv asked = FetchRejected (Rejected "Failed to fetch")
  /\ exists w' id,
       submit offlineEnv asked = (Normal tt, w')
       /\ messages (ui w')
          = messages (ui asked)
            ++ [userMessage offlineEnv asked;
                {| Msg.id := id; Msg.text := apology; Msg.sender := bot;
                   Msg.correction := None; Msg.isError := true |}]
       /\ backendCalls (turnEffects offlineEnv asked) = [FetchCall (turnRequest asked)]
       /\ In (EConsoleError "Failed to fetch from LLM endpoint:" (Rejected "Failed to fetch"))
             (turnEffects offlineEnv asked)
       /\ isLoading (ui w') = false.
Proof.
  split; [exact accepted_asked |]. split; [reflexivity |].
  apply (transport_failure_turn offlineEnv accepted_asked). left. reflexivity.
Defined.

Lemma reply_text_is_verbatim_witness :
  accepted asked
  /\ turnReply skyEnv asked = http 200 (Some skyText)
  /\ exists w' id correction,
       submit skyEnv asked = (Normal tt, w')
       /\ messages (ui w')
          = messages (ui asked)
            ++ [userMessage skyEnv asked;
                {| Msg.id := id; Msg.text := skyText; Msg.sender := bot;
                   Msg.correction := correction; Msg.isError := false |}].
Proof.
  split; [exact accepted_asked |]. split; [reflexivity |].
  refine (reply_text_is_verbatim skyEnv accepted_asked
            (r := {| status := 200; body := Json (Data.mk (Some skyText)) |})
            (data := Data.mk (Some skyText)) (text := skyText)
            eq_refl eq_refl eq_refl eq_refl _).
  discriminate.
Defined.

Lemma reply_id_exceeds_question_id_witness :
  (forall later, arrival frozenEnv asked <= clock frozenEnv (sendingTrace frozenEnv asked ++ later))
  /\ exists question reply,
       messages (ui (snd (submit frozenEnv asked))) = messages (ui asked) ++ [question; reply]
       /\ Msg.sender question = user
       /\ Msg.sender reply = bot
       /\ Msg.id question < Msg.id reply.
Proof.
  assert (H : forall later,
             arrival frozenEnv asked <= clock frozenEnv (sendingTrace frozenEnv asked ++ later))
    by (intros later; unfold arrival; cbn [clock frozenEnv]; lia).
  split; [exact H |].
  exact (reply_id_exceeds_question_id frozenEnv accepted_asked H).
Defined.

Lemma classifier_failure_reads_as_opinion_witness :
  accepted asked
  /\ generation (turnReply unclassifiedEnv asked) = inr skyText
  /\ genai_reply unclassifiedEnv (trace (sending unclassifiedEnv asked)) (classifyRequest skyText)
     = GenRejected (Rejected "429")
  /\ exists w' id,
       submit unclassifiedEnv asked = (Normal tt, w')
       /\ messages (ui w')
          = messages (ui asked)
            ++ [userMessage unclassifiedEnv asked;
                {| Msg.id := id; Msg.text := skyText; Msg.sender := bot;
                   Msg.correction := Some opinionNotice; Msg.isError := false |}]
       /\ backendCalls (turnEffects unclassifiedEnv asked)
          = [FetchCall (turnRequest asked); GenerateCall (classifyRequest skyText)].
Proof.
  split; [exact accepted_asked |]. split; [reflexivity |]. split; [reflexivity |].
  apply (classifier_failure_reads_as_opinion unclassifiedEnv accepted_asked eq_refl
           (text := skyText) eq_refl).
  left. exists (Rejected "429"). reflexivity.
Defined.

Lemma resubmit_without_typing_is_rejected_witness :
  trim "" = ""%string
  /\ accepted asked
  /\ input (ui (snd (submit skyEnv asked))) = ""%string
  /\ submit skyEnv (snd (submit skyEnv asked))
     = (Normal tt,
        {| ui := ui (snd (submit skyEnv asked));
           trace := trace (snd (submit skyEnv asked)) ++ [EPreventDefault] |}).
Proof.
  split; [reflexivity |]. split; [exact accepted_asked |].
  exact (resubmit_without_typing_is_rejected skyEnv (w := asked) eq_refl accepted_asked).
Defined.

Lemma next_turn_quotes_last_exchange_witness :
  accepted asked
  /\ isContextEnabled (ui asked) = true
  /\ exists earlier reply,
       (length earlier <= 2)%nat
       /\ messages (ui (run skyEnv [Submit] asked))
          = messages (ui asked) ++ [userMessage skyEnv asked; reply]
       /\ prompt (turnRequest (run skyEnv [Submit; TypeInput "why"%string] asked))
          = contextTemplate
              (map Msg.text earlier ++ [Msg.text (userMessage skyEnv asked); Msg.text reply])
              (processedInput "why").
Proof.
  split; [exact accepted_asked |]. split; [reflexivity |].
  exact (next_turn_quotes_last_exchange skyEnv "why" accepted_asked eq_refl).
Defined.

Lemma extraction_never_empty_without_direct_text_witness :
  noDirectText toolResponse
  /\ groundedResponse toolResponse <> ""%string
  /\ groundedResponse toolResponse
     = trim (Js.join " " (fragments (firstCandidateParts toolResponse))).
Proof.
  assert (H : noDirectText toolResponse) by (left; reflexivity).
  split; [exact H |].
  destruct (extraction_never_empty_without_direct_text H) as [Hne _].
  split; [exact Hne | reflexivity].
Defined.

Lemma blank_verdict_shows_no_correction_witness :
  let w := sending blankVerdictEnv asked in
  classifyStatementType blankVerdictEnv skyText w
    = (Normal FACT, snd (classifyStatementType blankVerdictEnv skyText w))
  /\ trim "  " = ""%string
  /\ fst (getFactCheckCorrection blankVerdictEnv skyText w) = Normal (Some ""%string)
  /\ View.correctionBox (renderMessage (botMessage skyText (Some ""%string) 7)) = None.
Proof.
  intros w.
  assert (Hc : classifyStatementType blankVerdictEnv skyText w
               = (Normal FACT, snd (classifyStatementType blankVerdictEnv skyText w)))
    by reflexivity.
  split; [exact Hc |]. split; [reflexivity |].
  refine (AsciiFacts.blank_verdict_shows_no_correction blankVerdictEnv skyText w
            (r := {| Resp.text := Some "  "%string; Resp.functionCalls := None;
                     Resp.candidates := None |})
            (t := "  "%string) 7 Hc eq_refl eq_refl _ eq_refl).
  discriminate.
Defined.
